(** * MDAQA: the paper selector and the LLM retry layer

    A shallow embedding of [src/data_loader.py] (class [DataLoader]) and of
    [src/llm_client.py] (class [LLMClient]), followed by the properties of
    the selection algorithm and of the retry/backoff discipline.

    Python values are modelled as follows.
    - [str] is a sequence of Unicode code points: [list N].
    - [int] is [Z]; the numbers of the backoff computation are exact
      rationals [Q].
    - [None]/value is [option]; a raised exception is the [Raise] branch of
      [result].
    - The content store (a directory of text files) is a finite map from
      paths to files. *)

From Stdlib Require Import ZArith NArith QArith Qminmax List Ascii String Lia Lqa.
From Stdlib Require Import DecimalString.
From stdpp Require Import base option list gmap.

Import ListNotations.
Local Open Scope Z_scope.

(** ** Python strings *)

Module PyStr.

Definition str : Type := list N.

(** A literal: the code points of an ASCII string. *)
Definition pystr (s : string) : str :=
  List.map N_of_ascii (list_ascii_of_string s).

Definition LF : N := 10%N.

(** [len(s)] *)
Definition len {A} (s : list A) : Z := Z.of_nat (List.length s).

(** [s.startswith(p)] *)
Fixpoint startswith (p s : str) : bool :=
  match p, s with
  | [], _ => true
  | _ :: _, [] => false
  | a :: p', b :: s' => N.eqb a b && startswith p' s'
  end.

(** [sub in s] *)
Fixpoint str_in (sub s : str) : bool :=
  startswith sub s ||
  match s with
  | [] => false
  | _ :: s' => str_in sub s'
  end.

(** [c.isspace()]: the 29 code points [str.strip()] removes. *)
Definition isspace (c : N) : bool :=
  ((9 <=? c) && (c <=? 13) || (28 <=? c) && (c <=? 32)
   || (c =? 133) || (c =? 160) || (c =? 5760)
   || (8192 <=? c) && (c <=? 8202)
   || (c =? 8232) || (c =? 8233) || (c =? 8239) || (c =? 8287)
   || (c =? 12288))%N.

Fixpoint lstrip (s : str) : str :=
  match s with
  | [] => []
  | c :: s' => if isspace c then lstrip s' else s
  end.

Definition rstrip (s : str) : str := rev (lstrip (rev s)).

(** [s.strip()] *)
Definition strip (s : str) : str := rstrip (lstrip s).

(** [f.readline()] on a file whose remaining text is [s]: everything up
    to and including the first line feed. *)
Fixpoint readline (s : str) : str :=
  match s with
  | [] => []
  | c :: s' => if N.eqb c LF then [c] else c :: readline s'
  end.

(** [s.replace(old, new)] for a non-empty [old]: one scan from the left;
    at an occurrence of [old] emit [new] and jump over the occurrence
    ([skip] counts the characters of it still to be jumped over). *)
Fixpoint replace_from (old new : str) (skip : nat) (s : str) : str :=
  match s with
  | [] => []
  | c :: s' =>
      match skip with
      | S k => replace_from old new k s'
      | O =>
          if startswith old s
          then new ++ replace_from old new (List.length old - 1) s'
          else c :: replace_from old new 0 s'
      end
  end.

(** [s.replace(old, new)]; with an empty [old] Python puts [new] before
    every character and at the end. *)
Definition replace (old new s : str) : str :=
  match old with
  | [] => new ++ flat_map (fun c => c :: new) s
  | _ :: _ => replace_from old new 0 s
  end.

(** [str(n)] / [f"{n}"] for a non-negative [int]. *)
Definition str_of_nat (n : nat) : str :=
  pystr (NilZero.string_of_uint (Nat.to_uint n)).

End PyStr.

Import PyStr.

(** ** Configuration: the document [yaml.safe_load] returns *)

Record llm_config := {
  provider : str;
  model : str;
  temperature : Q;
  max_tokens : Z;
  (* provider-specific keys: a missing key is [None] *)
  api_key : option str;
  api_base : option str;
  api_version : option str;
  project_id : option str;
  region : option str
}.

Record data_config := {
  community_data : str;
  semantic_mapping : str;
  spiqa_path : str
}.

Record processing_config := {
  min_file_size : Z;       (* kilobytes *)
  max_file_size : Z;       (* kilobytes *)
  max_content_length : Z;  (* characters *)
  max_retries : Z;
  base_delay : Q;          (* seconds *)
  max_delay : Q            (* seconds *)
}.

Record config := {
  llm : llm_config;
  data : data_config;
  processing : processing_config
}.

(** ** The content store *)

(** A file of the store: its size in bytes ([os.path.getsize]) and what
    reading it in text mode as UTF-8 gives (line ends already translated
    to line feeds), [None] when [readline]/[read] raise
    [UnicodeDecodeError] or [IOError]. *)
Record file := {
  st_size : Z;
  text : option str
}.

(** The store maps a path to the file found there; a path outside the map
    does not exist ([os.path.exists] is false). *)
Abbreviation store := (gmap str file).

(** ** [class DataLoader] *)

Module DataLoader.

(** [os.path.join(a, b)] (POSIX). *)
Definition path_join (a b : str) : str :=
  if startswith (pystr "/") b then b
  else match a with
       | [] => b
       | _ :: _ =>
           if N.eqb (List.last a 0%N) 47%N then a ++ b
           else a ++ pystr "/" ++ b
       end.

(** [f"{arxiv_id}v{version}.txt"] *)
Definition file_name (arxiv_id : str) (version : nat) : str :=
  arxiv_id ++ pystr "v" ++ str_of_nat version ++ pystr ".txt".

(** The size test of [_load_single_paper]: true when the file is skipped. *)
Definition size_out_of_range (min_size max_size file_size : Z) : bool :=
  (file_size <? min_size) || (file_size >? max_size).

(** [first_line = f.readline().strip()] *)
Definition first_line (content : str) : str := strip (readline content).

(** ["\\section" in first_line] *)
Definition starts_with_latex_section (content : str) : bool :=
  str_in (pystr "\section") (first_line content).

(** [f.read().replace("\n\n", "\n")] *)
Definition normalize (content : str) : str :=
  replace [LF; LF] [LF] content.

(** The body of the version loop of [_load_single_paper]: [Some content]
    is [return content], [None] is [continue]. *)
Definition try_version (fs : store) (arxiv_id spiqa_path : str)
    (min_size max_size : Z) (version : nat) : option str :=
  let file_path := path_join spiqa_path (file_name arxiv_id version) in
  match fs !! file_path with
  | None => None
  | Some f =>
      if size_out_of_range min_size max_size (st_size f) then None
      else
        match text f with
        | None => None
        | Some content =>
            if starts_with_latex_section content then None
            else Some (normalize content)
        end
  end.

(** [for version in versions: ...] followed by [return None]. *)
Fixpoint probe_versions (fs : store) (arxiv_id spiqa_path : str)
    (min_size max_size : Z) (versions : list nat) : option str :=
  match versions with
  | [] => None
  | version :: rest =>
      match try_version fs arxiv_id spiqa_path min_size max_size version with
      | Some content => Some content
      | None => probe_versions fs arxiv_id spiqa_path min_size max_size rest
      end
  end.

(** [range(1, 15)] *)
Definition versions : list nat := seq 1 14.

Definition _load_single_paper (fs : store) (arxiv_id spiqa_path : str)
    (min_size max_size : Z) : option str :=
  probe_versions fs arxiv_id spiqa_path min_size max_size versions.

(** The labeled block [get_paper_content] appends for an accepted paper. *)
Definition block (arxiv_id title content : str) : str :=
  pystr "**title**: " ++ title ++ [LF] ++
  pystr "**arxiv_id**: " ++ arxiv_id ++ [LF] ++
  pystr "**content**: " ++ content ++ [LF; LF].

(** The candidate loop of [get_paper_content], from the accumulators
    [(contents, valid_arxiv_ids)]. *)
Fixpoint collect (fs : store) (spiqa_path : str) (min_size max_size : Z)
    (arxiv_ids : list (str * str)) (acc : str * list (str * str))
    : str * list (str * str) :=
  match arxiv_ids with
  | [] => acc
  | (arxiv_id, title) :: rest =>
      let '(contents, valid_arxiv_ids) := acc in
      let acc' :=
        match _load_single_paper fs arxiv_id spiqa_path min_size max_size with
        | None => acc
        | Some [] => acc   (* [if content:] is false on the empty string *)
        | Some content =>
            (contents ++ block arxiv_id title content,
             valid_arxiv_ids ++ [(arxiv_id, title)])
        end in
      collect fs spiqa_path min_size max_size rest acc'
  end.

(** [min_size] and [max_size] of [get_paper_content]: the configured
    kilobytes converted to bytes. *)
Definition min_size (cfg : config) : Z := min_file_size (processing cfg) * 1024.
Definition max_size (cfg : config) : Z := max_file_size (processing cfg) * 1024.

Definition get_paper_content (cfg : config) (fs : store)
    (arxiv_ids : list (str * str))
    : option str * option (list (str * str)) :=
  let '(contents, valid_arxiv_ids) :=
    collect fs (spiqa_path (data cfg)) (min_size cfg) (max_size cfg)
      arxiv_ids ([], []) in
  if len valid_arxiv_ids <=? 1 then (None, None)
  else if len contents >? max_content_length (processing cfg) then (None, None)
  else (Some contents, Some valid_arxiv_ids).

(** *** Observations used in the statements *)

(** The file probed for a version of a candidate. *)
Definition file_of (fs : store) (arxiv_id spiqa_path : str) (version : nat)
    : option file :=
  fs !! path_join spiqa_path (file_name arxiv_id version).


End DataLoader.

(** ** [class LLMClient] *)

Module LLMClient.

(** Exceptions. [KeyboardInterrupt] stands for the [BaseException]s that
    are not [Exception]s, which [except Exception] does not catch. *)
Inductive exn :=
| ValueError (msg : str)
| KeyError (key : str)
| AttributeError (name : str)
| Exception_ (msg : str)
| ProviderError (status : Z) (msg : str)
| KeyboardInterrupt.

Definition is_Exception (e : exn) : bool :=
  match e with
  | KeyboardInterrupt => false
  | _ => true
  end.

Inductive result (A : Type) :=
| Ok (a : A)
| Raise (e : exn).
Arguments Ok {A} a.
Arguments Raise {A} e.

(** The client objects [_initialize_client] builds. *)
Inductive client :=
| OpenAI (api_key : str) (base_url : option str)
| AzureOpenAI (api_key azure_endpoint api_version : str)
| AnthropicVertex (project_id region : str).

Record message := { role : str; content : str }.

(** The two wire calls, with their keyword arguments. *)
Inductive api_call :=
| chat_completions_create (model : str) (messages : list message)
    (temperature : Q) (max_tokens : Z) (response_format : option str)
| messages_create (model : str) (max_tokens : Z) (system : str)
    (messages : list message) (temperature : Q).

(** What a run does, in order. [EvDispatch] is a ghost event marking an
    invocation of [generate_response]. *)
Inductive event :=
| EvDispatch
| EvRequest (c : client) (call : api_call)
| EvUniform (j : Q)
| EvPrint (e : exn) (delay : Q)
| EvSleep (delay : Q).

Definition world : Type := list event.

(** A computation: it reads the history, extends it, and returns or raises. *)
Definition M (A : Type) : Type := world -> result A * world.

Definition ret {A} (a : A) : M A := fun w => (Ok a, w).

Definition raise {A} (e : exn) : M A := fun w => (Raise e, w).

Definition bind {A B} (m : M A) (k : A -> M B) : M B :=
  fun w =>
    match m w with
    | (Ok a, w') => k a w'
    | (Raise e, w') => (Raise e, w')
    end.

(** [try: m  except Exception as e: h e] *)
Definition try_except {A} (m : M A) (h : exn -> M A) : M A :=
  fun w =>
    match m w with
    | (Ok a, w') => (Ok a, w')
    | (Raise e, w') => if is_Exception e then h e w' else (Raise e, w')
    end.

Definition emit (ev : event) : M unit := fun w => (Ok tt, w ++ [ev]).

Notation "'do!' x <- m ; k" := (bind m (fun x => k))
  (at level 10, x name, m at level 100, k at level 200).
Notation "'run!' m ; k" := (bind m (fun _ => k))
  (at level 10, m at level 100, k at level 200).

(** [d[key]] on a provider-specific key of the [llm] section. *)
Definition getitem {A} (key : string) (v : option A) : result A :=
  match v with
  | Some a => Ok a
  | None => Raise (KeyError (pystr key))
  end.

Definition str_eqb (a b : str) : bool := bool_decide (a = b).

(** The instance: [self.config] and [self.client]. *)
Record instance := { self_config : config; self_client : client }.

Section Runtime.

(** [str.lower], the provider service (its answer to a request, given the
    history so far) and [random.uniform(0, 1)] (its draw, given the
    history so far). *)
Variable lower : str -> str.
Variable provider_api : world -> client -> api_call -> result str.
Variable uniform01 : world -> Q.

Definition _initialize_client (cfg : config) : result client :=
  let provider := lower (provider (llm cfg)) in
  if str_eqb provider (pystr "openai") then
    match getitem "api_key" (api_key (llm cfg)) with
    | Raise e => Raise e
    | Ok key => Ok (OpenAI key (api_base (llm cfg)))
    end
  else if str_eqb provider (pystr "azure_openai") then
    match getitem "api_key" (api_key (llm cfg)) with
    | Raise e => Raise e
    | Ok key =>
        match getitem "api_base" (api_base (llm cfg)) with
        | Raise e => Raise e
        | Ok endpoint =>
            match getitem "api_version" (api_version (llm cfg)) with
            | Raise e => Raise e
            | Ok version => Ok (AzureOpenAI key endpoint version)
            end
        end
    end
  else if str_eqb provider (pystr "anthropic_vertex") then
    match getitem "project_id" (project_id (llm cfg)) with
    | Raise e => Raise e
    | Ok project =>
        match getitem "region" (region (llm cfg)) with
        | Raise e => Raise e
        | Ok reg => Ok (AnthropicVertex project reg)
        end
    end
  else Raise (ValueError (pystr "Unsupported provider: " ++ provider)).

(** [__init__], after the configuration file has been read. *)
Definition __init__ (cfg : config) : result instance :=
  match _initialize_client cfg with
  | Ok c => Ok {| self_config := cfg; self_client := c |}
  | Raise e => Raise e
  end.

(** One request/response exchange with the provider. *)
Definition send (c : client) (call : api_call) : M str :=
  fun w => (provider_api w c call, w ++ [EvRequest c call]).

Definition _generate_openai_response (self : instance)
    (system_prompt user_prompt : str) (use_json_format : bool) : M str :=
  let messages :=
    [ {| role := pystr "system"; content := system_prompt |};
      {| role := pystr "user"; content := user_prompt |} ] in
  let response_format :=
    if use_json_format then Some (pystr "json_object") else None in
  match self_client self with
  | AnthropicVertex _ _ => raise (AttributeError (pystr "chat"))
  | c =>
      send c (chat_completions_create
                (model (llm (self_config self))) messages
                (temperature (llm (self_config self)))
                (max_tokens (llm (self_config self))) response_format)
  end.

Definition _generate_anthropic_response (self : instance)
    (system_prompt user_prompt : str) : M str :=
  match self_client self with
  | AnthropicVertex _ _ as c =>
      send c (messages_create
                (model (llm (self_config self)))
                (max_tokens (llm (self_config self)))
                system_prompt
                [ {| role := pystr "user"; content := user_prompt |} ]
                (temperature (llm (self_config self))))
  | _ => raise (AttributeError (pystr "messages"))
  end.

Definition generate_response (self : instance)
    (system_prompt user_prompt : str) (use_json_format : bool) : M str :=
  run! emit EvDispatch;
  let provider := lower (provider (llm (self_config self))) in
  if str_eqb provider (pystr "openai") || str_eqb provider (pystr "azure_openai")
  then _generate_openai_response self system_prompt user_prompt use_json_format
  else if str_eqb provider (pystr "anthropic_vertex")
  then _generate_anthropic_response self system_prompt user_prompt
  else raise (ValueError
         (pystr "Response generation not implemented for provider: "
          ++ provider)).

(** [min(max_delay, base_delay * 2**attempt) + random.uniform(0, 1)] with
    the draw [jitter], as an exact rational: the value of line 118 before
    Python rounds the sum to a double. Python raises [OverflowError] there
    when [2**attempt] has to become a float and [attempt >= 1024]; the
    statements that depend on it keep to [backoff_safe] configurations. *)
Definition backoff_delay (max_delay base_delay : Q) (attempt : Z)
    (jitter : Q) : Q :=
  (Qmin max_delay (base_delay * inject_Z (2 ^ attempt)) + jitter)%Q.

(** [random.uniform(0, 1)] *)
Definition random_uniform : M Q :=
  fun w => let j := uniform01 w in (Ok j, w ++ [EvUniform j]).

(** [time.sleep(delay)]: a negative delay raises [ValueError]. A delay
    beyond what the platform can wait for (some 4.29e6 s at the least,
    9.2e9 s on Linux) raises [OverflowError] in Python; the statements that
    depend on it keep to [backoff_safe] configurations. *)
Definition sleep (delay : Q) : M unit :=
  if Qle_bool 0 delay then emit (EvSleep delay)
  else raise (ValueError (pystr "sleep length must be non-negative")).

(** [range(n)] *)
Definition range (n : Z) : list Z := List.map Z.of_nat (seq 0 (Z.to_nat n)).

(** The loop of [generate_with_retry] over the remaining attempts. *)
Fixpoint retry_loop (self : instance) (system_prompt user_prompt : str)
    (use_json_format : bool) (max_retries : Z) (base_delay max_delay : Q)
    (attempts : list Z) : M str :=
  match attempts with
  | [] => raise (Exception_ (pystr "Max retries exceeded"))
  | attempt :: rest =>
      try_except
        (generate_response self system_prompt user_prompt use_json_format)
        (fun e =>
           if attempt =? max_retries - 1 then raise e
           else
             do! jitter <- random_uniform;
             let delay := backoff_delay max_delay base_delay attempt jitter in
             run! emit (EvPrint e delay);
             run! sleep delay;
             retry_loop self system_prompt user_prompt use_json_format
               max_retries base_delay max_delay rest)
  end.

Definition generate_with_retry (self : instance)
    (system_prompt user_prompt : str) (use_json_format : bool) : M str :=
  let max_retries := max_retries (processing (self_config self)) in
  let base_delay := base_delay (processing (self_config self)) in
  let max_delay := max_delay (processing (self_config self)) in
  retry_loop self system_prompt user_prompt use_json_format
    max_retries base_delay max_delay (range max_retries).

End Runtime.

(** *** Observations used in the statements *)

(** The number of invocations of [generate_response] in a history. *)
Definition dispatches (w : world) : nat :=
  List.length
    (List.filter (fun ev => match ev with EvDispatch => true | _ => false end) w).

(** The time spent in [time.sleep] in a history. *)
Fixpoint total_sleep (w : world) : Q :=
  match w with
  | [] => 0
  | EvSleep d :: w' => d + total_sleep w'
  | _ :: w' => total_sleep w'
  end.

(** [min(max_delay, base_delay * 2**i)], the delay without its jitter. *)
Definition backoff_cap (max_delay base_delay : Q) (i : Z) : Q :=
  Qmin max_delay (base_delay * inject_Z (2 ^ i)).

(** The sum of [f i] for [i] in [l]. *)
Fixpoint sum_over (f : Z -> Q) (l : list Z) : Q :=
  match l with
  | [] => 0
  | i :: l' => f i + sum_over f l'
  end.

(** [random.uniform(0, 1)] draws from [[0, 1)]. *)
Definition draws_in_unit_interval (uniform01 : world -> Q) : Prop :=
  forall w, (0 <= uniform01 w /\ uniform01 w < 1)%Q.

(** The configured delays are not negative. *)
Definition delays_nonnegative (cfg : config) : Prop :=
  (0 <= base_delay (processing cfg) /\ 0 <= max_delay (processing cfg))%Q.


End LLMClient.

(** ** [DataLoader.load_community_data] *)

Module CommunityData.

Local Unset Elimination Schemes.

(** What [json.load] returns. A [dict] keeps its entries in order. *)
Inductive json :=
| JNull
| JBool (b : bool)
| JInt (z : Z)
| JFloat (q : Q)
| JStr (s : str)
| JList (items : list json)
| JDict (entries : list (str * json)).

Local Set Elimination Schemes.

(** [OSError_] stands for the [OSError]s of [open] other than
    [FileNotFoundError] ([NotADirectoryError], [IsADirectoryError],
    [PermissionError], ...), [UnicodeDecodeError] is what reading raises on
    bytes that are not UTF-8, [JSONDecodeError] what [json.load] raises on
    malformed text. *)
Inductive error :=
| FileNotFoundError (msg : str)
| OSError_
| UnicodeDecodeError
| JSONDecodeError
| ValueError (msg : str).

Inductive outcome (A : Type) :=
| Returned (a : A)
| Raised (e : error).
Arguments Returned {A} a.
Arguments Raised {A} e.

(** What [open(path, 'r', encoding='utf-8')] does: it opens a file, whose
    text can be decoded ([Some]) or not ([None]), or raises
    [FileNotFoundError], or raises another [OSError]. *)
Inductive opened :=
| Opened (content : option str)
| NoSuchFile
| OtherOSError.

(** [key in d] for a [dict] [d]. *)
Definition key_in (key : str) (entries : list (str * json)) : bool :=
  existsb (fun entry => bool_decide (fst entry = key)) entries.

Section Parser.

(** The file system as [open] sees it, and [json.load] on the text of a
    file ([None] when the text is not JSON). *)
Variable open_ : str -> opened.
Variable json_load : str -> option json.

Definition load_community_data (cfg : config) : outcome (list json) :=
  let community_path := community_data (data cfg) in
  match open_ community_path with
  | NoSuchFile =>
      Raised (FileNotFoundError
                (pystr "Community data file not found: " ++ community_path
                 ++ [LF]
                 ++ pystr "Please provide the community detection results file."))
  | OtherOSError => Raised OSError_
  | Opened None => Raised UnicodeDecodeError
  | Opened (Some content) =>
      match json_load content with
      | None => Raised JSONDecodeError
      | Some data =>
          match data with
          | JDict entries =>
              if key_in (pystr "community_id") entries
              then Returned [data]
              else Raised (ValueError (pystr "Invalid community data format"))
          | JList items => Returned items
          | _ => Raised (ValueError (pystr "Invalid community data format"))
          end
      end
  end.

End Parser.

End CommunityData.

(** ** Further observations used in the statements *)

Module Observe.
Import DataLoader LLMClient.

(** The delays of the sleeps of a history, in order. *)
Fixpoint sleeps (w : world) : list Q :=
  match w with
  | [] => []
  | EvSleep d :: w' => d :: sleeps w'
  | _ :: w' => sleeps w'
  end.

(** The number of requests sent to the provider in a history. *)
Fixpoint requests (w : world) : nat :=
  match w with
  | [] => 0
  | EvRequest _ _ :: w' => S (requests w')
  | _ :: w' => requests w'
  end.

(** The candidate is one [get_paper_content] keeps: a version of it is
    accepted and its text is not empty. *)
Definition contributes (fs : store) (spiqa_path : str) (min_size max_size : Z)
    (candidate : str * str) : bool :=
  match _load_single_paper fs (fst candidate) spiqa_path min_size max_size with
  | Some (_ :: _) => true
  | _ => false
  end.

(** The labeled block of a kept candidate. *)
Definition block_of (fs : store) (spiqa_path : str) (min_size max_size : Z)
    (candidate : str * str) : str :=
  match _load_single_paper fs (fst candidate) spiqa_path min_size max_size with
  | Some content => block (fst candidate) (snd candidate) content
  | None => []
  end.

End Observe.

(** ** Concrete configurations, stores and runtimes used in the examples *)

Module Fixtures.

Definition llm_openai : llm_config :=
  {| provider := pystr "OpenAI"; model := pystr "gpt-4o";
     temperature := 7 # 10; max_tokens := 4096;
     api_key := Some (pystr "sk-test"); api_base := None;
     api_version := None; project_id := None; region := None |}.

Definition llm_anthropic : llm_config :=
  {| provider := pystr "anthropic_vertex"; model := pystr "claude-3-5-sonnet";
     temperature := 7 # 10; max_tokens := 4096;
     api_key := None; api_base := None; api_version := None;
     project_id := Some (pystr "my-project");
     region := Some (pystr "us-east5") |}.

Definition data_example : data_config :=
  {| community_data := pystr "data/communities.json";
     semantic_mapping := pystr "data/mapping.json";
     spiqa_path := pystr "spiqa" |}.

(** Files between 0 and 1 KB, at most 200 characters, 4 attempts, backoff
    1 s capped at 1 s. *)
Definition processing_small : processing_config :=
  {| min_file_size := 0; max_file_size := 1; max_content_length := 200;
     max_retries := 4; base_delay := 1; max_delay := 1 |}.

(** 8 attempts, backoff 1 s capped at 60 s. *)
Definition processing_long : processing_config :=
  {| min_file_size := 1; max_file_size := 100; max_content_length := 100000;
     max_retries := 8; base_delay := 1; max_delay := 60 |}.

Definition cfg_small : config :=
  {| llm := llm_openai; data := data_example; processing := processing_small |}.

Definition cfg_long : config :=
  {| llm := llm_openai; data := data_example; processing := processing_long |}.

Definition cfg_anthropic : config :=
  {| llm := llm_anthropic; data := data_example; processing := processing_small |}.

(** [str.lower] on ASCII text. *)
Definition ascii_lower (s : str) : str :=
  List.map (fun c => if ((65 <=? c) && (c <=? 90))%N then (c + 32)%N else c) s.

(** A provider that answers every request with a rate-limit error. *)
Definition api_rate_limited
    : LLMClient.world -> LLMClient.client -> LLMClient.api_call
      -> LLMClient.result str :=
  fun _ _ _ => LLMClient.Raise (LLMClient.ProviderError 429 (pystr "rate limit")).

(** A provider that answers every request. *)
Definition api_ok
    : LLMClient.world -> LLMClient.client -> LLMClient.api_call
      -> LLMClient.result str :=
  fun _ _ _ => LLMClient.Ok (pystr "{}").

(** Every draw of [random.uniform(0, 1)] is 0.5. *)
Definition uniform_half : LLMClient.world -> Q := fun _ => 1 # 2.

Definition client_openai : LLMClient.instance :=
  {| LLMClient.self_config := cfg_small;
     LLMClient.self_client := LLMClient.OpenAI (pystr "sk-test") None |}.

Definition client_anthropic : LLMClient.instance :=
  {| LLMClient.self_config := cfg_anthropic;
     LLMClient.self_client :=
       LLMClient.AnthropicVertex (pystr "my-project") (pystr "us-east5") |}.

(** An ASCII text file: one byte per character. *)
Definition ascii_file (s : str) : file :=
  {| st_size := len s; text := Some s |}.

Definition paper_A_v1 : str :=
  pystr "\section{Introduction}" ++ [LF] ++ pystr "We study graphs." ++ [LF].

Definition paper_A_v2 : str :=
  pystr "Graph Networks" ++ [LF] ++ pystr "We study graphs." ++ [LF].

Definition paper_B_v1 : str :=
  pystr "Title" ++ [LF; LF; LF] ++ pystr "Body".

(** Paper A has a version 1 that starts with a section heading and a clean
    version 2; paper B has a version 1 with a run of three line feeds. *)
Definition store_example : store :=
  {[ pystr "spiqa/Av1.txt" := ascii_file paper_A_v1;
     pystr "spiqa/Av2.txt" := ascii_file paper_A_v2;
     pystr "spiqa/Bv1.txt" := ascii_file paper_B_v1 ]}.

(** No attempt at all. *)
Definition processing_no_attempt : processing_config :=
  {| min_file_size := 0; max_file_size := 1; max_content_length := 200;
     max_retries := 0; base_delay := 1; max_delay := 1 |}.


Definition client_no_attempt : LLMClient.instance :=
  {| LLMClient.self_config :=
       {| llm := llm_openai; data := data_example;
          processing := processing_no_attempt |};
     LLMClient.self_client := LLMClient.OpenAI (pystr "sk-test") None |}.



(** The user interrupts the first exchange. *)
Definition api_interrupted
    : LLMClient.world -> LLMClient.client -> LLMClient.api_call
      -> LLMClient.result str :=
  fun _ _ _ => LLMClient.Raise LLMClient.KeyboardInterrupt.

(** Paper E has an empty version 1 and a clean version 2; paper F has only
    a version 15; paper /G lives outside the store directory. *)
Definition store_edge : store :=
  {[ pystr "spiqa/Ev1.txt" := ascii_file [];
     pystr "spiqa/Ev2.txt" := ascii_file paper_A_v2;
     pystr "spiqa/Fv15.txt" := ascii_file paper_A_v2;
     pystr "/Gv1.txt" := ascii_file paper_A_v2 ]}.

(** A reader for two JSON texts. *)
Definition json_load_example (content : str) : option CommunityData.json :=
  if bool_decide (content = pystr "[]") then Some (CommunityData.JList [])
  else if bool_decide (content = pystr "{}") then Some (CommunityData.JDict [])
  else None.

(** Only the community file can be opened; its text is an empty list. *)
Definition open_communities (path : str) : CommunityData.opened :=
  if bool_decide (path = pystr "data/communities.json")
  then CommunityData.Opened (Some (pystr "[]"))
  else CommunityData.NoSuchFile.

(** Paper D has one pair of line feeds and no longer run. *)
Definition paper_D_v1 : str :=
  pystr "Title" ++ [LF; LF] ++ pystr "Body".

Definition store_pair : store :=
  {[ pystr "spiqa/Dv1.txt" := ascii_file paper_D_v1 ]}.


End Fixtures.

(** * Properties *)

(** ** Python strings *)

Section PyStrFacts.

Lemma startswith_LF (s : str) :
  startswith [LF] s = match s with c :: _ => N.eqb c LF | [] => false end.
Proof.
  destruct s as [|c s]; cbn [startswith]; [reflexivity|].
  rewrite andb_true_r. apply N.eqb_sym.
Qed.

Lemma startswith_LF_LF (c : N) (s : str) :
  startswith [LF; LF] (c :: s) = N.eqb c LF && startswith [LF] s.
Proof.
  cbn [startswith]. rewrite (N.eqb_sym LF c). destruct s; reflexivity.
Qed.

Lemma replace_pair_nil : replace [LF; LF] [LF] [] = [].
Proof. reflexivity. Qed.

(** At a pair of line feeds the scan emits one and jumps over both. *)
Lemma replace_pair_hit (s : str) :
  replace [LF; LF] [LF] (LF :: LF :: s) = LF :: replace [LF; LF] [LF] s.
Proof. reflexivity. Qed.

(** Elsewhere the scan copies the character. *)
Lemma replace_pair_miss (c : N) (s : str) :
  startswith [LF; LF] (c :: s) = false ->
  replace [LF; LF] [LF] (c :: s) = c :: replace [LF; LF] [LF] s.
Proof.
  intros H. unfold replace. cbn [replace_from]. rewrite H. reflexivity.
Qed.

Lemma startswith_LF_LF_inv (c : N) (s : str) :
  startswith [LF; LF] (c :: s) = true -> exists r, c = LF /\ s = LF :: r.
Proof.
  rewrite startswith_LF_LF, startswith_LF.
  destruct s as [|d r]; [rewrite andb_false_r; discriminate|].
  intros [H1 H2]%andb_prop.
  apply N.eqb_eq in H1, H2. subst. eauto.
Qed.

(** The replacement keeps the first character. *)
Lemma replace_pair_head (s : str) :
  startswith [LF] (replace [LF; LF] [LF] s) = startswith [LF] s.
Proof.
  destruct s as [|c s]; [reflexivity|].
  destruct (startswith [LF; LF] (c :: s)) eqn:E.
  - apply startswith_LF_LF_inv in E as (r & -> & ->).
    rewrite replace_pair_hit. reflexivity.
  - rewrite replace_pair_miss by assumption. reflexivity.
Qed.

Lemma str_in_cons (sub : str) (c : N) (s : str) :
  str_in sub (c :: s) = startswith sub (c :: s) || str_in sub s.
Proof. reflexivity. Qed.

Lemma replace_pair_no_double_bounded (n : nat) :
  forall s : str,
    (List.length s <= n)%nat ->
    str_in [LF; LF; LF] s = false ->
    str_in [LF; LF] (replace [LF; LF] [LF] s) = false.
Proof.
  induction n as [|n IH]; intros s Hlen Hno.
  - destruct s; [reflexivity | simpl in Hlen; lia].
  - destruct s as [|c s]; [reflexivity|].
    rewrite str_in_cons in Hno. apply orb_false_elim in Hno as [Hhd Htl].
    assert (IHs : str_in [LF; LF] (replace [LF; LF] [LF] s) = false).
    { apply IH; [simpl in Hlen; lia | assumption]. }
    destruct (startswith [LF; LF] (c :: s)) eqn:E.
    + apply startswith_LF_LF_inv in E as (r & -> & ->).
      rewrite replace_pair_hit, str_in_cons.
      rewrite startswith_LF_LF, replace_pair_head.
      assert (Hr : startswith [LF] r = false).
      { rewrite startswith_LF. destruct r as [|d r]; [reflexivity|].
        simpl in Hhd. destruct (N.eqb_spec 10 d) as [<-|]; [discriminate|].
        apply N.eqb_neq. unfold LF. congruence. }
      rewrite Hr, andb_false_r. simpl.
      apply IH; [simpl in Hlen; lia|].
      rewrite str_in_cons in Htl. apply orb_false_elim in Htl as [_ Htl].
      assumption.
    + rewrite replace_pair_miss by assumption.
      rewrite str_in_cons, startswith_LF_LF, replace_pair_head.
      rewrite <- startswith_LF_LF, E. assumption.
Qed.

(** A text without a run of three line feeds has no pair of line feeds
    left after the replacement. *)
Lemma replace_pair_no_double (s : str) :
  str_in [LF; LF; LF] s = false ->
  str_in [LF; LF] (replace [LF; LF] [LF] s) = false.
Proof. apply (replace_pair_no_double_bounded (List.length s)). lia. Qed.

End PyStrFacts.

(** ** The paper selector *)

Module DataLoaderSpec.
Import DataLoader.

Section Probing.

Variable fs : store.
Variables arxiv_id spiqa_path : str.
Variables min_size max_size : Z.

Local Abbreviation try := (try_version fs arxiv_id spiqa_path min_size max_size).
Local Abbreviation probe := (probe_versions fs arxiv_id spiqa_path min_size max_size).

Lemma probe_versions_app (l1 l2 : list nat) :
  probe (l1 ++ l2) =
  match probe l1 with Some c => Some c | None => probe l2 end.
Proof.
  induction l1 as [|v l1 IH]; [reflexivity|].
  cbn [probe_versions app]. destruct (try v); [reflexivity | exact IH].
Qed.

Lemma probe_versions_skipped (l : list nat) :
  (forall v, In v l -> try v = None) -> probe l = None.
Proof.
  induction l as [|v l IH]; intros H; [reflexivity|].
  cbn [probe_versions]. rewrite (H v) by (left; reflexivity).
  apply IH. intros u Hu. apply H. right. exact Hu.
Qed.


(** A version whose first line has the section marker is skipped. *)
Lemma try_version_latex (v : nat) (f : file) (content : str) :
  file_of fs arxiv_id spiqa_path v = Some f ->
  text f = Some content ->
  starts_with_latex_section content = true ->
  try v = None.
Proof.
  unfold file_of, try_version. intros -> -> ->.
  destruct (size_out_of_range _ _ _); reflexivity.
Qed.

(** A version that passes every check is returned, normalized. *)
Lemma try_version_accepted (v : nat) (f : file) (content : str) :
  file_of fs arxiv_id spiqa_path v = Some f ->
  size_out_of_range min_size max_size (st_size f) = false ->
  text f = Some content ->
  starts_with_latex_section content = false ->
  try v = Some (normalize content).
Proof.
  unfold file_of, try_version. intros -> -> -> ->. reflexivity.
Qed.

(** What [try_version] returns comes from a file of the store. *)
Lemma try_version_Some (v : nat) (content : str) :
  try v = Some content ->
  exists f raw,
    file_of fs arxiv_id spiqa_path v = Some f /\
    size_out_of_range min_size max_size (st_size f) = false /\
    text f = Some raw /\
    starts_with_latex_section raw = false /\
    content = normalize raw.
Proof.
  unfold file_of, try_version.
  destruct (fs !! _) as [f|]; [|discriminate].
  destruct (size_out_of_range _ _ _) eqn:Hs; [discriminate|].
  destruct (text f) as [raw|] eqn:Ht; [|discriminate].
  destruct (starts_with_latex_section raw) eqn:Hl; [discriminate|].
  intros [= <-]. exists f, raw. auto.
Qed.

Lemma probe_versions_Some (l : list nat) (content : str) :
  probe l = Some content ->
  exists v, In v l /\ try v = Some content.
Proof.
  induction l as [|v l IH]; [discriminate|].
  cbn [probe_versions]. destruct (try v) as [c|] eqn:E.
  - intros [= <-]. exists v. split; [left; reflexivity | exact E].
  - intros H. destruct (IH H) as (u & Hu & Htry).
    exists u. split; [right; exact Hu | exact Htry].
Qed.

(** The versions probed from [v] on: [v], ..., 14. *)
Lemma versions_split (v : nat) :
  (1 <= v <= 14)%nat ->
  versions = seq 1 (v - 1) ++ v :: seq (S v) (14 - v).
Proof.
  intros Hv. unfold versions.
  replace 14%nat with ((v - 1) + S (14 - v))%nat at 1 by lia.
  rewrite seq_app. f_equal.
  replace (1 + (v - 1))%nat with v by lia. reflexivity.
Qed.

End Probing.


(** C8. When version 1 exists and is size-valid but its first line has a
    section heading, and [w] in 2..14 is the first higher version that
    passes every check, [_load_single_paper] skips version 1 only and
    returns the (normalized) content of version [w]. *)
Theorem load_single_paper_skips_only_heading_version
    (fs : store) (arxiv_id spiqa_path : str) (min_size max_size : Z)
    (f1 : file) (c1 : str) (w : nat) (fw : file) (cw : str) :
  file_of fs arxiv_id spiqa_path 1 = Some f1 ->
  size_out_of_range min_size max_size (st_size f1) = false ->
  text f1 = Some c1 ->
  starts_with_latex_section c1 = true ->
  (2 <= w <= 14)%nat ->
  (forall u, (2 <= u < w)%nat ->
     try_version fs arxiv_id spiqa_path min_size max_size u = None) ->
  file_of fs arxiv_id spiqa_path w = Some fw ->
  size_out_of_range min_size max_size (st_size fw) = false ->
  text fw = Some cw ->
  starts_with_latex_section cw = false ->
  _load_single_paper fs arxiv_id spiqa_path min_size max_size
  = Some (normalize cw).
Proof.
  intros Hf1 Hs1 Ht1 Hl1 Hw Hskip Hfw Hsw Htw Hlw.
  unfold _load_single_paper.
  rewrite (versions_split w) by lia.
  rewrite probe_versions_app, probe_versions_skipped.
  - cbn [probe_versions].
    rewrite (try_version_accepted _ _ _ _ _ w fw cw) by assumption.
    reflexivity.
  - intros u Hu. apply in_seq in Hu.
    destruct (Nat.eq_dec u 1%nat) as [->|Hne].
    + apply (try_version_latex _ _ _ _ _ 1 f1 c1); assumption.
    + apply Hskip. lia.
Qed.

Lemma load_single_paper_skips_only_heading_version_witness :
  _load_single_paper Fixtures.store_example (pystr "A") (pystr "spiqa")
    (min_size Fixtures.cfg_small) (max_size Fixtures.cfg_small)
  = Some (normalize Fixtures.paper_A_v2).
Proof.
  apply (load_single_paper_skips_only_heading_version
           Fixtures.store_example (pystr "A") (pystr "spiqa")
           (min_size Fixtures.cfg_small) (max_size Fixtures.cfg_small)
           (Fixtures.ascii_file Fixtures.paper_A_v1) Fixtures.paper_A_v1
           2 (Fixtures.ascii_file Fixtures.paper_A_v2) Fixtures.paper_A_v2).
  - vm_compute; reflexivity.
  - vm_compute; reflexivity.
  - reflexivity.
  - vm_compute; reflexivity.
  - lia.
  - intros u Hu. lia.
  - vm_compute; reflexivity.
  - vm_compute; reflexivity.
  - reflexivity.
  - vm_compute; reflexivity.
Defined.




(** C5, as stated, fails: version 1 of paper B holds a run of three line
    feeds, and the text returned for it still has two in a row. *)
Lemma load_single_paper_no_double_newline_refuted :
  ~ (forall (fs : store) (arxiv_id spiqa_path : str) (min_size max_size : Z)
            (content : str),
       _load_single_paper fs arxiv_id spiqa_path min_size max_size
       = Some content ->
       str_in [LF; LF] content = false).
Proof.
  intros H.
  specialize (H Fixtures.store_example (pystr "B") (pystr "spiqa")
                (min_size Fixtures.cfg_small) (max_size Fixtures.cfg_small)
                (pystr "Title" ++ [LF; LF] ++ pystr "Body")).
  assert (E : str_in [LF; LF] (pystr "Title" ++ [LF; LF] ++ pystr "Body")
              = false).
  { apply H. vm_compute; reflexivity. }
  vm_compute in E. discriminate E.
Qed.

(** C5, amended. The text [_load_single_paper] returns is the text of an
    accepted version in which each pair of line feeds met by one scan from
    the left has been replaced by a single line feed; it has no two line
    feeds in a row when the stored text has no run of three. *)
Theorem load_single_paper_collapses_newline_pairs
    (fs : store) (arxiv_id spiqa_path : str) (min_size max_size : Z)
    (content : str) :
  _load_single_paper fs arxiv_id spiqa_path min_size max_size = Some content ->
  exists (v : nat) (f : file) (raw : str),
    In v versions /\
    file_of fs arxiv_id spiqa_path v = Some f /\
    text f = Some raw /\
    content = replace [LF; LF] [LF] raw /\
    (str_in [LF; LF; LF] raw = false -> str_in [LF; LF] content = false).
Proof.
  intros H. unfold _load_single_paper in H.
  apply probe_versions_Some in H as (v & Hv & Htry).
  apply try_version_Some in Htry as (f & raw & Hf & _ & Ht & _ & ->).
  exists v, f, raw. repeat split; try assumption.
  apply replace_pair_no_double.
Qed.

Lemma load_single_paper_collapses_newline_pairs_witness :
  exists (v : nat) (f : file) (raw : str),
    In v versions /\
    file_of Fixtures.store_pair (pystr "D") (pystr "spiqa") v = Some f /\
    text f = Some raw /\
    pystr "Title" ++ [LF] ++ pystr "Body" = replace [LF; LF] [LF] raw /\
    (str_in [LF; LF; LF] raw = false ->
     str_in [LF; LF] (pystr "Title" ++ [LF] ++ pystr "Body") = false).
Proof.
  apply (load_single_paper_collapses_newline_pairs
           Fixtures.store_pair (pystr "D") (pystr "spiqa")
           (min_size Fixtures.cfg_small) (max_size Fixtures.cfg_small)).
  vm_compute; reflexivity.
Defined.

(** In that store the stored text of paper D has one pair of line feeds and
    no run of three, and the text returned for it has no pair left. *)
Example load_single_paper_pair_collapsed :
  str_in [LF; LF] Fixtures.paper_D_v1 = true /\
  str_in [LF; LF; LF] Fixtures.paper_D_v1 = false /\
  _load_single_paper Fixtures.store_pair (pystr "D") (pystr "spiqa")
    (min_size Fixtures.cfg_small) (max_size Fixtures.cfg_small)
  = Some (pystr "Title" ++ [LF] ++ pystr "Body") /\
  str_in [LF; LF] (pystr "Title" ++ [LF] ++ pystr "Body") = false.
Proof. vm_compute. repeat split; reflexivity. Qed.

(** C6. The size test is inclusive at both ends after the conversion to
    bytes: a size is kept exactly when it lies in
    [min_file_size*1024, max_file_size*1024]; so, the interval being
    non-empty, exactly [min_file_size*1024] bytes pass, one byte less is
    rejected, exactly [max_file_size*1024] bytes pass, one byte more is
    rejected. *)
Theorem size_filter_inclusive_at_both_ends (cfg : config) :
  min_file_size (processing cfg) <= max_file_size (processing cfg) ->
  (forall file_size : Z,
     size_out_of_range (min_size cfg) (max_size cfg) file_size = false <->
     min_file_size (processing cfg) * 1024 <= file_size
       <= max_file_size (processing cfg) * 1024) /\
  size_out_of_range (min_size cfg) (max_size cfg)
    (min_file_size (processing cfg) * 1024) = false /\
  size_out_of_range (min_size cfg) (max_size cfg)
    (min_file_size (processing cfg) * 1024 - 1) = true /\
  size_out_of_range (min_size cfg) (max_size cfg)
    (max_file_size (processing cfg) * 1024) = false /\
  size_out_of_range (min_size cfg) (max_size cfg)
    (max_file_size (processing cfg) * 1024 + 1) = true.
Proof.
  intros Hle. unfold size_out_of_range, min_size, max_size.
  repeat split.
  - apply orb_false_elim in H as [H _]. apply Z.ltb_ge in H. exact H.
  - apply orb_false_elim in H as [_ H]. rewrite Z.gtb_ltb in H.
    apply Z.ltb_ge in H. exact H.
  - intros [H1 H2]. apply orb_false_intro.
    + apply Z.ltb_ge. exact H1.
    + rewrite Z.gtb_ltb. apply Z.ltb_ge. exact H2.
  - apply orb_false_intro; [apply Z.ltb_ge; lia|].
    rewrite Z.gtb_ltb. apply Z.ltb_ge. lia.
  - apply orb_true_intro. left. apply Z.ltb_lt. lia.
  - apply orb_false_intro; [apply Z.ltb_ge; lia|].
    rewrite Z.gtb_ltb. apply Z.ltb_ge. lia.
  - apply orb_true_intro. right. rewrite Z.gtb_ltb. apply Z.ltb_lt. lia.
Qed.

Lemma size_filter_inclusive_at_both_ends_witness :
  size_out_of_range 1024 102400 1024 = false /\
  size_out_of_range 1024 102400 1023 = true /\
  size_out_of_range 1024 102400 102400 = false /\
  size_out_of_range 1024 102400 102401 = true.
Proof.
  assert (Hle : min_file_size (processing Fixtures.cfg_long)
                <= max_file_size (processing Fixtures.cfg_long))
    by (vm_compute; discriminate).
  exact (proj2 (size_filter_inclusive_at_both_ends Fixtures.cfg_long Hle)).
Defined.

(** The byte bounds [_load_single_paper] receives are what decides a
    version: a readable file without a section heading is returned exactly
    when its size is within them. *)
Lemma try_version_size_decides (cfg : config) (fs : store)
    (arxiv_id : str) (v : nat) (f : file) (content : str) :
  file_of fs arxiv_id (spiqa_path (data cfg)) v = Some f ->
  text f = Some content ->
  starts_with_latex_section content = false ->
  try_version fs arxiv_id (spiqa_path (data cfg)) (min_size cfg) (max_size cfg) v
  = if size_out_of_range (min_size cfg) (max_size cfg) (st_size f)
    then None else Some (normalize content).
Proof.
  unfold file_of, try_version. intros -> -> ->. reflexivity.
Qed.

(** C2. [get_paper_content] returns either [(None, None)] or a selection
    with at least 2 contributing papers whose combined text is at most
    [max_content_length] long; with fewer than 2 accepted papers, or with a
    longer combined text, it returns [(None, None)]. *)
Theorem get_paper_content_selection_invariant
    (cfg : config) (fs : store) (arxiv_ids : list (str * str)) :
  let result := get_paper_content cfg fs arxiv_ids in
  let aggregate :=
    collect fs (spiqa_path (data cfg)) (min_size cfg) (max_size cfg)
      arxiv_ids ([], []) in
  (result = (None, None) \/
   exists contents valid_arxiv_ids,
     result = (Some contents, Some valid_arxiv_ids) /\
     aggregate = (contents, valid_arxiv_ids) /\
     2 <= len valid_arxiv_ids /\
     len contents <= max_content_length (processing cfg)) /\
  (len (snd aggregate) < 2 -> result = (None, None)) /\
  (len (fst aggregate) > max_content_length (processing cfg) ->
   result = (None, None)).
Proof.
  cbv zeta. unfold get_paper_content.
  destruct (collect _ _ _ _ _ _) as [contents valid_arxiv_ids].
  cbn [fst snd].
  destruct (Z.leb_spec (len valid_arxiv_ids) 1) as [Hfew|Hmany].
  - repeat split; auto.
  - rewrite Z.gtb_ltb.
    destruct (Z.ltb_spec (max_content_length (processing cfg)) (len contents))
      as [Hlong|Hfits].
    + repeat split; auto.
    + split; [|split].
      * right. exists contents, valid_arxiv_ids.
        repeat split; lia.
      * intros H. lia.
      * intros H. lia.
Qed.

End DataLoaderSpec.

(** ** The dispatch and retry layer *)

Module LLMClientSpec.
Import LLMClient.

Lemma dispatches_app (w1 w2 : world) :
  dispatches (w1 ++ w2) = (dispatches w1 + dispatches w2)%nat.
Proof. unfold dispatches. rewrite List.filter_app, List.length_app. reflexivity. Qed.

Lemma total_sleep_app (w1 w2 : world) :
  (total_sleep (w1 ++ w2) == total_sleep w1 + total_sleep w2)%Q.
Proof.
  induction w1 as [|ev w1 IH]; cbn [app total_sleep].
  - lra.
  - destruct ev; try exact IH. rewrite IH. lra.
Qed.

Lemma sum_over_app (f : Z -> Q) (l1 l2 : list Z) :
  (sum_over f (l1 ++ l2) == sum_over f l1 + sum_over f l2)%Q.
Proof.
  induction l1 as [|i l1 IH]; cbn [app sum_over]; [lra | rewrite IH; lra].
Qed.

Lemma sum_over_ext_in (f g : Z -> Q) (l : list Z) :
  (forall i, In i l -> (f i == g i)%Q) ->
  (sum_over f l == sum_over g l)%Q.
Proof.
  induction l as [|i l IH]; intros H; cbn [sum_over]; [lra|].
  rewrite (H i) by (left; reflexivity).
  rewrite IH; [lra|]. intros j Hj. apply H. right. exact Hj.
Qed.

Lemma range_In (n i : Z) : In i (range n) <-> 0 <= i < n.
Proof.
  unfold range. rewrite in_map_iff. split.
  - intros (k & <- & Hk%in_seq). lia.
  - intros H. exists (Z.to_nat i). split; [lia|]. apply in_seq. lia.
Qed.

Lemma range_snoc (n : Z) : 1 <= n -> range n = range (n - 1) ++ [n - 1].
Proof.
  intros Hn. unfold range.
  replace (Z.to_nat n) with (Z.to_nat (n - 1) + 1)%nat by lia.
  rewrite seq_app, List.map_app. cbn [seq List.map]. do 2 f_equal. lia.
Qed.

Lemma backoff_cap_nonneg (max_delay base_delay : Q) (i : Z) :
  (0 <= base_delay)%Q -> (0 <= max_delay)%Q ->
  (0 <= backoff_cap max_delay base_delay i)%Q.
Proof.
  intros Hb Hm. unfold backoff_cap. apply Q.min_glb; [exact Hm|].
  apply Qmult_le_0_compat; [exact Hb|].
  change 0%Q with (inject_Z 0). rewrite <- Zle_Qle. apply Z.pow_nonneg. lia.
Qed.

Lemma str_eqb_eq (a b : str) : str_eqb a b = true <-> a = b.
Proof. unfold str_eqb. apply bool_decide_eq_true. Qed.

(** C3, as stated, fails once the cap applies: with 8 attempts, a base
    delay of 1 s and a cap of 60 s, attempt 6 sleeps 60.5 s on a draw of
    0.5, below [base_delay * 2^6 = 64]. *)
Lemma backoff_delay_uncapped_interval_refuted :
  ~ (forall (max_retries : Z) (max_delay base_delay : Q) (attempt : Z)
            (jitter : Q),
       0 <= attempt < max_retries - 1 ->
       (0 <= jitter /\ jitter < 1)%Q ->
       (base_delay * inject_Z (2 ^ attempt)
          <= backoff_delay max_delay base_delay attempt jitter /\
        backoff_delay max_delay base_delay attempt jitter
          < base_delay * inject_Z (2 ^ attempt) + 1 /\
        backoff_delay max_delay base_delay attempt jitter
          <= max_delay + 1)%Q).
Proof.
  intros H.
  destruct (H (max_retries (processing Fixtures.cfg_long))
              (max_delay (processing Fixtures.cfg_long))
              (base_delay (processing Fixtures.cfg_long))
              6 (1 # 2)) as [Hlow _].
  - vm_compute. split; [discriminate | reflexivity].
  - split; [discriminate | reflexivity].
  - vm_compute in Hlow. apply Hlow. reflexivity.
Qed.

(** C3, amended. For every attempt from 0 to 1023, every base delay that
    is not negative, every cap between 0 and 4,000,000 s and every jitter in
    [0, 1), the backoff delay lies in the closed interval
    [cap, cap + 1] for [cap = min(max_delay, base_delay * 2^attempt)], and
    does not exceed [max_delay + 1]; it lies in
    [base_delay * 2^attempt, base_delay * 2^attempt + 1] whenever
    [base_delay * 2^attempt <= max_delay]. The upper ends are closed
    because Python rounds the sum to a double, which can reach them; the
    bounds on the attempt and the cap are those within which line 118
    raises nothing and every number involved is a double or an integer
    that converts to one exactly. *)
Theorem backoff_delay_capped_interval
    (max_delay base_delay : Q) (attempt : Z) (jitter : Q) :
  0 <= attempt <= 1023 ->
  (0 <= base_delay)%Q ->
  (0 <= max_delay /\ max_delay <= 4000000)%Q ->
  (0 <= jitter /\ jitter < 1)%Q ->
  (backoff_cap max_delay base_delay attempt
     <= backoff_delay max_delay base_delay attempt jitter /\
   backoff_delay max_delay base_delay attempt jitter
     <= backoff_cap max_delay base_delay attempt + 1 /\
   backoff_delay max_delay base_delay attempt jitter <= max_delay + 1 /\
   (base_delay * inject_Z (2 ^ attempt) <= max_delay ->
    base_delay * inject_Z (2 ^ attempt)
      <= backoff_delay max_delay base_delay attempt jitter /\
    backoff_delay max_delay base_delay attempt jitter
      <= base_delay * inject_Z (2 ^ attempt) + 1))%Q.
Proof.
  intros _ _ _ [Hj0 Hj1]. unfold backoff_delay, backoff_cap.
  pose proof (Q.le_min_l max_delay (base_delay * inject_Z (2 ^ attempt))) as Hl.
  split; [lra|]. split; [lra|]. split; [lra|].
  intros Hle. rewrite (Q.min_r _ _ Hle). split; lra.
Qed.

Lemma backoff_delay_capped_interval_witness :
  (backoff_cap 60 1 6 <= backoff_delay 60 1 6 (1 # 2) /\
   backoff_delay 60 1 6 (1 # 2) <= backoff_cap 60 1 6 + 1 /\
   backoff_delay 60 1 6 (1 # 2) <= 60 + 1 /\
   (1 * inject_Z (2 ^ 6) <= 60 ->
    1 * inject_Z (2 ^ 6) <= backoff_delay 60 1 6 (1 # 2) /\
    backoff_delay 60 1 6 (1 # 2) <= 1 * inject_Z (2 ^ 6) + 1))%Q.
Proof.
  apply (backoff_delay_capped_interval 60 1 6 (1 # 2)).
  - lia.
  - discriminate.
  - split; discriminate.
  - split; [discriminate | reflexivity].
Defined.

(** Below the cap the delay is in the interval of the uncapped term. *)
Example backoff_delay_below_cap :
  (1 * inject_Z (2 ^ 3) <= 60 /\
   1 * inject_Z (2 ^ 3) <= backoff_delay 60 1 3 (1 # 2) /\
   backoff_delay 60 1 3 (1 # 2) <= 1 * inject_Z (2 ^ 3) + 1)%Q.
Proof. repeat split; discriminate. Qed.

Section Dispatch.

Variable lower : str -> str.
Variable provider_api : world -> client -> api_call -> result str.

Local Abbreviation _initialize_client := (_initialize_client lower).
Local Abbreviation __init__ := (__init__ lower).
Local Abbreviation send := (send provider_api).
Local Abbreviation _generate_openai_response :=
  (_generate_openai_response provider_api).
Local Abbreviation _generate_anthropic_response :=
  (_generate_anthropic_response provider_api).
Local Abbreviation generate_response := (generate_response lower provider_api).

(** A client is built only for one of the three supported providers, and
    it is the client of that provider. *)
Lemma initialize_client_supported (cfg : config) (c : client) :
  _initialize_client cfg = Ok c ->
  (lower (provider (llm cfg)) = pystr "openai" /\
   exists key base, c = OpenAI key base) \/
  (lower (provider (llm cfg)) = pystr "azure_openai" /\
   exists key endpoint version, c = AzureOpenAI key endpoint version) \/
  (lower (provider (llm cfg)) = pystr "anthropic_vertex" /\
   exists project reg, c = AnthropicVertex project reg).
Proof.
  unfold LLMClient._initialize_client, getitem.
  destruct (str_eqb _ (pystr "openai")) eqn:E1.
  { apply str_eqb_eq in E1. intros H. left. split; [exact E1|].
    destruct (api_key (llm cfg)); [|discriminate].
    injection H as <-. eauto. }
  destruct (str_eqb _ (pystr "azure_openai")) eqn:E2.
  { apply str_eqb_eq in E2. intros H. right. left. split; [exact E2|].
    destruct (api_key (llm cfg)); [|discriminate].
    destruct (api_base (llm cfg)); [|discriminate].
    destruct (api_version (llm cfg)); [|discriminate].
    injection H as <-. eauto. }
  destruct (str_eqb _ (pystr "anthropic_vertex")) eqn:E3.
  { apply str_eqb_eq in E3. intros H. right. right. split; [exact E3|].
    destruct (project_id (llm cfg)); [|discriminate].
    destruct (region (llm cfg)); [|discriminate].
    injection H as <-. eauto. }
  discriminate.
Qed.

Lemma init_instance (cfg : config) (self : instance) :
  __init__ cfg = Ok self ->
  self_config self = cfg /\ _initialize_client cfg = Ok (self_client self).
Proof.
  unfold LLMClient.__init__.
  destruct (_initialize_client cfg) as [c|e]; [|discriminate].
  intros [= <-]. split; reflexivity.
Qed.

(** [generate_response] records the dispatch and then branches on the
    lowercased provider tag. *)
Lemma generate_response_unfold (self : instance) (s u : str) (j : bool)
    (w : world) :
  generate_response self s u j w =
  let p := lower (provider (llm (self_config self))) in
  if str_eqb p (pystr "openai") || str_eqb p (pystr "azure_openai")
  then _generate_openai_response self s u j (w ++ [EvDispatch])
  else if str_eqb p (pystr "anthropic_vertex")
  then _generate_anthropic_response self s u (w ++ [EvDispatch])
  else (Raise (ValueError
          (pystr "Response generation not implemented for provider: " ++ p)),
        w ++ [EvDispatch]).
Proof.
  unfold LLMClient.generate_response, bind, emit. cbv zeta.
  destruct (_ || _); [reflexivity|].
  destruct (str_eqb _ _); reflexivity.
Qed.

(** C10. Once construction has succeeded, [generate_response] never takes
    its "not implemented" branch: every call is one exchange with the
    provider, through the OpenAI path when the tag is [openai] or
    [azure_openai] and through the Anthropic path when it is
    [anthropic_vertex]. *)
Theorem generate_response_dispatches_after_init
    (cfg : config) (self : instance) (s u : str) (j : bool) (w : world) :
  __init__ cfg = Ok self ->
  exists call : api_call,
    generate_response self s u j w
    = send (self_client self) call (w ++ [EvDispatch]) /\
    (((lower (provider (llm cfg)) = pystr "openai" \/
       lower (provider (llm cfg)) = pystr "azure_openai") /\
      generate_response self s u j w
      = _generate_openai_response self s u j (w ++ [EvDispatch]) /\
      call = chat_completions_create (model (llm cfg))
               [ {| role := pystr "system"; content := s |};
                 {| role := pystr "user"; content := u |} ]
               (temperature (llm cfg)) (max_tokens (llm cfg))
               (if j then Some (pystr "json_object") else None))
     \/
     (lower (provider (llm cfg)) = pystr "anthropic_vertex" /\
      generate_response self s u j w
      = _generate_anthropic_response self s u (w ++ [EvDispatch]) /\
      call = messages_create (model (llm cfg)) (max_tokens (llm cfg)) s
               [ {| role := pystr "user"; content := u |} ]
               (temperature (llm cfg)))).
Proof.
  intros Hinit. apply init_instance in Hinit as [Hcfg Hclient].
  apply initialize_client_supported in Hclient.
  destruct self as [cfg' c]. cbn [self_config self_client] in *. subst cfg'.
  rewrite generate_response_unfold. cbn [self_config]. cbv zeta.
  destruct Hclient as [[Hp (key & base & ->)]
                      |[[Hp (key & endpoint & version & ->)]
                       |[Hp (project & reg & ->)]]];
    rewrite Hp.
  - eexists. split; [reflexivity|]. left. repeat split. left. reflexivity.
  - eexists. split; [reflexivity|]. left. repeat split. right. reflexivity.
  - eexists. split; [reflexivity|]. right. repeat split.
Qed.

(** C9. On the [anthropic_vertex] variant the structured-JSON flag has no
    effect: with the flag set, [generate_response] sends the same request
    (which has no JSON field), leaves the same history and returns the same
    outcome as without it, and that outcome is the provider's answer. *)
Theorem generate_response_json_flag_ignored_on_anthropic
    (cfg : config) (self : instance) (s u : str) (w : world) :
  __init__ cfg = Ok self ->
  lower (provider (llm cfg)) = pystr "anthropic_vertex" ->
  let call :=
    messages_create (model (llm cfg)) (max_tokens (llm cfg)) s
      [ {| role := pystr "user"; content := u |} ] (temperature (llm cfg)) in
  generate_response self s u true w = generate_response self s u false w /\
  generate_response self s u true w
  = (provider_api (w ++ [EvDispatch]) (self_client self) call,
     (w ++ [EvDispatch]) ++ [EvRequest (self_client self) call]).
Proof.
  intros Hinit Hp. cbv zeta.
  apply init_instance in Hinit as [Hcfg Hclient].
  apply initialize_client_supported in Hclient.
  destruct self as [cfg' c]. cbn [self_config self_client] in *. subst cfg'.
  rewrite !generate_response_unfold. cbn [self_config]. cbv zeta.
  destruct Hclient as [[Hq _]|[[Hq _]|[_ (project & reg & ->)]]].
  - rewrite Hp in Hq. discriminate Hq.
  - rewrite Hp in Hq. discriminate Hq.
  - rewrite Hp. split; reflexivity.
Qed.

End Dispatch.

Lemma generate_response_dispatches_after_init_witness :
  exists call : api_call,
    generate_response Fixtures.ascii_lower Fixtures.api_ok
      Fixtures.client_openai (pystr "system") (pystr "user") true []
    = send Fixtures.api_ok (self_client Fixtures.client_openai) call
        [EvDispatch].
Proof.
  destruct (generate_response_dispatches_after_init
              Fixtures.ascii_lower Fixtures.api_ok Fixtures.cfg_small
              Fixtures.client_openai (pystr "system") (pystr "user") true [])
    as (call & Hcall & _).
  - vm_compute; reflexivity.
  - exists call. exact Hcall.
Defined.

Lemma generate_response_json_flag_ignored_on_anthropic_witness :
  generate_response Fixtures.ascii_lower Fixtures.api_ok
    Fixtures.client_anthropic (pystr "system") (pystr "user") true []
  = generate_response Fixtures.ascii_lower Fixtures.api_ok
      Fixtures.client_anthropic (pystr "system") (pystr "user") false [].
Proof.
  refine (proj1 (generate_response_json_flag_ignored_on_anthropic
                   Fixtures.ascii_lower Fixtures.api_ok Fixtures.cfg_anthropic
                   Fixtures.client_anthropic (pystr "system") (pystr "user")
                   [] _ _)).
  - vm_compute; reflexivity.
  - vm_compute; reflexivity.
Defined.

Section Retry.

Variable lower : str -> str.
Variable provider_api : world -> client -> api_call -> result str.
Variable uniform01 : world -> Q.

Local Abbreviation generate_response := (generate_response lower provider_api).
Local Abbreviation retry_loop := (retry_loop lower provider_api uniform01).
Local Abbreviation generate_with_retry :=
  (generate_with_retry lower provider_api uniform01).

(** One invocation of [generate_response] adds its dispatch mark and at
    most one request to the history. *)
Lemma generate_response_history (self : instance) (s u : str) (j : bool)
    (w : world) :
  exists tr,
    snd (generate_response self s u j w) = w ++ EvDispatch :: tr /\
    dispatches tr = 0%nat /\ (total_sleep tr == 0)%Q.
Proof.
  rewrite generate_response_unfold. cbv zeta.
  destruct (_ || _).
  - unfold _generate_openai_response, send, raise.
    destruct (self_client self); cbn [snd]; rewrite <- ?app_assoc;
      eexists; (split; [reflexivity | split; reflexivity]).
  - destruct (str_eqb _ _).
    + unfold _generate_anthropic_response, send, raise.
      destruct (self_client self); cbn [snd]; rewrite <- ?app_assoc;
        eexists; (split; [reflexivity | split; reflexivity]).
    + cbn [snd]. eexists. split; [reflexivity | split; reflexivity].
Qed.

(** One iteration of the loop of [generate_with_retry]. *)
Lemma retry_loop_cons (self : instance) (s u : str) (j : bool)
    (max_retries : Z) (base_delay max_delay : Q) (attempt : Z)
    (rest : list Z) (w : world) :
  retry_loop self s u j max_retries base_delay max_delay (attempt :: rest) w =
  match generate_response self s u j w with
  | (Ok text, w1) => (Ok text, w1)
  | (Raise e, w1) =>
      if is_Exception e then
        if attempt =? max_retries - 1 then (Raise e, w1)
        else
          let jitter := uniform01 w1 in
          let delay := backoff_delay max_delay base_delay attempt jitter in
          if Qle_bool 0 delay then
            retry_loop self s u j max_retries base_delay max_delay rest
              (((w1 ++ [EvUniform jitter]) ++ [EvPrint e delay])
               ++ [EvSleep delay])
          else
            (Raise (ValueError (pystr "sleep length must be non-negative")),
             (w1 ++ [EvUniform jitter]) ++ [EvPrint e delay])
      else (Raise e, w1)
  end.
Proof.
  cbn [LLMClient.retry_loop]. unfold try_except.
  destruct (generate_response self s u j w) as [[text|e] w1]; [reflexivity|].
  destruct (is_Exception e); [|reflexivity].
  destruct (attempt =? max_retries - 1); [reflexivity|].
  unfold bind, random_uniform, emit, sleep. cbv zeta.
  destruct (Qle_bool 0 _); reflexivity.
Qed.

Lemma sum_over_nonneg (f : Z -> Q) (l : list Z) :
  (forall i, (0 <= f i)%Q) -> (0 <= sum_over f l)%Q.
Proof.
  intros Hf. induction l as [|i l IH]; cbn [sum_over]; [lra|].
  specialize (Hf i). lra.
Qed.

(** The sleep allowed to one attempt: none on the final attempt, the
    capped delay plus the jitter bound otherwise. *)
Lemma sleep_allowance_range (n : Z) (g : Z -> Q) :
  (sum_over (fun a => if a =? n - 1 then 0 else g a) (range n)
   == sum_over g (range (n - 1)))%Q.
Proof.
  destruct (Z_lt_le_dec n 1) as [Hsmall|Hn].
  - unfold range. replace (Z.to_nat n) with 0%nat by lia.
    replace (Z.to_nat (n - 1)) with 0%nat by lia. reflexivity.
  - rewrite (range_snoc n Hn), sum_over_app.
    cbn [sum_over]. rewrite Z.eqb_refl.
    rewrite (sum_over_ext_in _ g).
    + lra.
    + intros i Hi%range_In.
      destruct (Z.eqb_spec i (n - 1)); [lia | reflexivity].
Qed.

Section Loop.

Variable self : instance.
Variables s u : str.
Variable j : bool.
Variable n : Z.
Variables base max : Q.

Hypothesis base_nonneg : (0 <= base)%Q.
Hypothesis max_nonneg : (0 <= max)%Q.
Hypothesis draws : draws_in_unit_interval uniform01.

Lemma backoff_delay_nonneg (attempt : Z) (w : world) :
  Qle_bool 0 (backoff_delay max base attempt (uniform01 w)) = true.
Proof.
  apply Qle_bool_iff. unfold backoff_delay.
  pose proof (backoff_cap_nonneg max base attempt base_nonneg max_nonneg) as Hc.
  unfold backoff_cap in Hc. destruct (draws w) as [Hj _]. lra.
Qed.

(** The loop invariant behind the bounds: from any history, the loop over
    [attempts] adds at most one dispatch per attempt and sleeps at most the
    allowance of each attempt. *)
Lemma retry_loop_bounds (attempts : list Z) :
  forall w : world,
  exists tr,
    snd (retry_loop self s u j n base max attempts w) = w ++ tr /\
    (dispatches tr <= List.length attempts)%nat /\
    (total_sleep tr
     <= sum_over (fun a => if a =? n - 1 then 0 else backoff_cap max base a + 1)
          attempts)%Q.
Proof.
  assert (Hallow : forall l,
             (0 <= sum_over (fun a => if a =? n - 1 then 0
                                      else backoff_cap max base a + 1) l)%Q).
  { intros l. apply sum_over_nonneg. intros i.
    destruct (i =? n - 1); [lra|].
    pose proof (backoff_cap_nonneg max base i base_nonneg max_nonneg). lra. }
  induction attempts as [|attempt rest IH]; intros w.
  - exists []. cbn. rewrite app_nil_r. repeat split; [lia | lra].
  - rewrite retry_loop_cons.
    destruct (generate_response_history self s u j w) as (tr1 & Hw1 & Hd1 & Hs1).
    destruct (generate_response self s u j w) as [r1 w1]. cbn [snd] in Hw1.
    assert (Hstop : exists tr,
               w1 = w ++ tr /\
               (dispatches tr <= List.length (attempt :: rest))%nat /\
               (total_sleep tr
                <= sum_over (fun a => if a =? n - 1 then 0
                                      else backoff_cap max base a + 1)
                     (attempt :: rest))%Q).
    { exists (EvDispatch :: tr1). split; [exact Hw1|]. split.
      - change (EvDispatch :: tr1) with ([EvDispatch] ++ tr1).
        rewrite dispatches_app, Hd1. cbn. lia.
      - cbn [total_sleep]. rewrite Hs1. apply Hallow. }
    destruct r1 as [text|e]; [exact Hstop|].
    destruct (is_Exception e); [|exact Hstop].
    destruct (Z.eqb_spec attempt (n - 1)) as [Hlast|Hmore]; [exact Hstop|].
    cbv zeta. rewrite backoff_delay_nonneg.
    set (jitter := uniform01 w1).
    set (delay := backoff_delay max base attempt jitter).
    destruct (IH (((w1 ++ [EvUniform jitter]) ++ [EvPrint e delay])
                  ++ [EvSleep delay])) as (tr2 & Hw2 & Hd2 & Hs2).
    exists ((EvDispatch :: tr1)
            ++ [EvUniform jitter; EvPrint e delay; EvSleep delay] ++ tr2).
    split; [|split].
    + rewrite Hw2, Hw1. rewrite <- !app_assoc. reflexivity.
    + change (EvDispatch :: tr1) with ([EvDispatch] ++ tr1).
      rewrite !dispatches_app, Hd1. cbn [List.length]. cbn. 
      change (dispatches [EvUniform jitter; EvPrint e delay; EvSleep delay])
        with 0%nat. lia.
    + rewrite total_sleep_app. cbn [total_sleep app]. rewrite Hs1.
      cbn [sum_over]. destruct (Z.eqb_spec attempt (n - 1)); [contradiction|].
      assert (Hdelay : (delay <= backoff_cap max base attempt + 1)%Q).
      { unfold delay, backoff_delay, backoff_cap.
        destruct (draws w1) as [_ Hj]. fold jitter in Hj. lra. }
      lra.
Qed.


End Loop.


(** C7, amended. One call of [generate_with_retry] invokes
    [generate_response] at most [max_retries] times, and the time it spends
    sleeping is at most the sum over [i] in [[0, max_retries - 1)] of
    [min(max_delay, base_delay * 2^i) + 1]. *)
Theorem generate_with_retry_bounded
    (self : instance) (s u : str) (j : bool) (w : world) :
  delays_nonnegative (self_config self) ->
  draws_in_unit_interval uniform01 ->
  exists tr,
    snd (generate_with_retry self s u j w) = w ++ tr /\
    (dispatches tr
     <= Z.to_nat (max_retries (processing (self_config self))))%nat /\
    (total_sleep tr
     <= sum_over
          (fun i =>
             backoff_cap (max_delay (processing (self_config self)))
               (base_delay (processing (self_config self))) i + 1)
          (range (max_retries (processing (self_config self)) - 1)))%Q.
Proof.
  intros [Hb Hm] Hdraws. unfold LLMClient.generate_with_retry. cbv zeta.
  destruct (retry_loop_bounds self s u j
              (max_retries (processing (self_config self))) _ _ Hb Hm Hdraws
              (range (max_retries (processing (self_config self)))) w)
    as (tr & Hw & Hd & Hs).
  exists tr. split; [exact Hw|]. split.
  - unfold range in Hd. rewrite List.length_map, List.length_seq in Hd. exact Hd.
  - rewrite sleep_allowance_range in Hs. exact Hs.
Qed.

End Retry.





(** C7, as stated, fails: with 4 attempts, a base delay of 1 s capped at
    1 s, a provider that always fails and draws of 0.5, the three sleeps
    add up to 4.5 s, above [1 + 1 + 1 + 1]. *)
Lemma generate_with_retry_sleep_bound_refuted :
  ~ (forall (lower : str -> str)
            (provider_api : world -> client -> api_call -> result str)
            (uniform01 : world -> Q)
            (self : instance) (s u : str) (j : bool) (w : world),
       delays_nonnegative (self_config self) ->
       draws_in_unit_interval uniform01 ->
       exists tr,
         snd (generate_with_retry lower provider_api uniform01 self s u j w)
         = w ++ tr /\
         (dispatches tr
          <= Z.to_nat (max_retries (processing (self_config self))))%nat /\
         (total_sleep tr
          <= sum_over
               (backoff_cap (max_delay (processing (self_config self)))
                  (base_delay (processing (self_config self))))
               (range (max_retries (processing (self_config self)))))%Q).
Proof.
  intros H.
  destruct (H Fixtures.ascii_lower Fixtures.api_rate_limited
              Fixtures.uniform_half Fixtures.client_openai
              (pystr "system") (pystr "user") true [])
    as (tr & Hw & _ & Hs).
  - split; vm_compute; discriminate.
  - intros w. split; [discriminate | reflexivity].
  - cbn [app] in Hw. subst tr. vm_compute in Hs. apply Hs. reflexivity.
Qed.

Lemma generate_with_retry_bounded_witness :
  exists tr,
    snd (generate_with_retry Fixtures.ascii_lower Fixtures.api_rate_limited
           Fixtures.uniform_half Fixtures.client_openai
           (pystr "system") (pystr "user") true [])
    = [] ++ tr /\
    (dispatches tr <= 4)%nat /\
    (total_sleep tr <= sum_over (fun i => backoff_cap 1 1 i + 1) (range 3))%Q.
Proof.
  apply (generate_with_retry_bounded
           Fixtures.ascii_lower Fixtures.api_rate_limited Fixtures.uniform_half
           Fixtures.client_openai (pystr "system") (pystr "user") true []).
  - split; vm_compute; discriminate.
  - intros w. split; [discriminate | reflexivity].
Defined.

(** X23. With no attempt configured ([max_retries <= 0]) the loop body
    never runs: the call raises [Exception("Max retries exceeded")] without
    a dispatch, leaving the history as it was. *)
Remark generate_with_retry_no_attempt
    (lower : str -> str)
    (provider_api : world -> client -> api_call -> result str)
    (uniform01 : world -> Q)
    (self : instance) (s u : str) (j : bool) (w : world) :
  max_retries (processing (self_config self)) <= 0 ->
  generate_with_retry lower provider_api uniform01 self s u j w
  = (Raise (Exception_ (pystr "Max retries exceeded")), w).
Proof.
  intros Hn. unfold generate_with_retry, range. cbv zeta.
  replace (Z.to_nat _) with 0%nat by lia. reflexivity.
Qed.

End LLMClientSpec.

(** ** Worked examples *)

Module Examples.
Import DataLoader LLMClient.

(** Candidates A, B and C, the store holding usable text for A and B only:
    the selection succeeds with A and B, C is dropped. *)
Example selection_of_two :
  snd (get_paper_content Fixtures.cfg_small Fixtures.store_example
         [(pystr "A", pystr "T1"); (pystr "B", pystr "T2");
          (pystr "C", pystr "T3")])
  = Some [(pystr "A", pystr "T1"); (pystr "B", pystr "T2")].
Proof. vm_compute. reflexivity. Qed.

(** Only A has usable text: the selection fails. *)
Example selection_of_one :
  get_paper_content Fixtures.cfg_small Fixtures.store_example
    [(pystr "A", pystr "T1"); (pystr "C", pystr "T3")]
  = (None, None).
Proof. vm_compute. reflexivity. Qed.

(** A run of three line feeds loses one. *)
Example replace_run_of_three :
  replace [LF; LF] [LF] (pystr "a" ++ [LF; LF; LF] ++ pystr "b")
  = pystr "a" ++ [LF; LF] ++ pystr "b".
Proof. vm_compute. reflexivity. Qed.

(** A provider that answers at once: one dispatch, one request, no sleep. *)
Example retry_first_attempt_succeeds :
  generate_with_retry Fixtures.ascii_lower Fixtures.api_ok
    Fixtures.uniform_half Fixtures.client_anthropic
    (pystr "system") (pystr "user") true []
  = (Ok (pystr "{}"),
     [EvDispatch;
      EvRequest (self_client Fixtures.client_anthropic)
        (messages_create (pystr "claude-3-5-sonnet") 4096 (pystr "system")
           [ {| role := pystr "user"; content := pystr "user" |} ] (7 # 10))]).
Proof. vm_compute. reflexivity. Qed.

(** An unsupported provider tag is refused at construction. *)
Example unsupported_provider :
  __init__ Fixtures.ascii_lower
    {| llm := {| provider := pystr "gemini"; model := pystr "m";
                 temperature := 0; max_tokens := 1; api_key := None;
                 api_base := None; api_version := None; project_id := None;
                 region := None |};
       data := Fixtures.data_example;
       processing := Fixtures.processing_small |}
  = Raise (ValueError (pystr "Unsupported provider: gemini")).
Proof. vm_compute. reflexivity. Qed.

End Examples.

(** * Further properties *)

(** ** The newline replacement and the first-line test *)

Section NormalizeFacts.

(** Induction along the scan of [replace] for a pair of line feeds. *)
Lemma replace_pair_scan_ind (P : str -> Prop) :
  P [] ->
  (forall r, P r -> P (LF :: LF :: r)) ->
  (forall c s, startswith [LF; LF] (c :: s) = false -> P s -> P (c :: s)) ->
  forall s, P s.
Proof.
  intros Hnil Hhit Hmiss s.
  assert (H : forall n (t : str), (List.length t <= n)%nat -> P t).
  { induction n as [|n IH]; intros t Hlen.
    - destruct t; [exact Hnil | simpl in Hlen; lia].
    - destruct t as [|c t]; [exact Hnil|].
      destruct (startswith [LF; LF] (c :: t)) eqn:E.
      + apply startswith_LF_LF_inv in E as (r & -> & ->).
        apply Hhit, IH. simpl in Hlen. lia.
      + apply Hmiss; [exact E|]. apply IH. simpl in Hlen. lia. }
  apply (H (List.length s)). lia.
Qed.

Lemma str_in_pair_hit (r : str) : str_in [LF; LF] (LF :: LF :: r) = true.
Proof. reflexivity. Qed.

Lemma replace_pair_length (s : str) :
  (List.length (replace [LF; LF] [LF] s) <= List.length s)%nat.
Proof.
  induction s as [|r IH|c s E IH] using replace_pair_scan_ind.
  - reflexivity.
  - rewrite replace_pair_hit. cbn [List.length]. lia.
  - rewrite replace_pair_miss by exact E. cbn [List.length]. lia.
Qed.

Lemma replace_pair_shrinks (s : str) :
  str_in [LF; LF] s = true ->
  (List.length (replace [LF; LF] [LF] s) < List.length s)%nat.
Proof.
  induction s as [|r IH|c s E IH] using replace_pair_scan_ind.
  - discriminate.
  - intros _. rewrite replace_pair_hit. cbn [List.length].
    pose proof (replace_pair_length r). lia.
  - rewrite str_in_cons, E. cbn [orb]. intros H.
    rewrite replace_pair_miss by exact E. cbn [List.length].
    specialize (IH H). lia.
Qed.

Lemma replace_pair_fixed (s : str) :
  str_in [LF; LF] s = false -> replace [LF; LF] [LF] s = s.
Proof.
  induction s as [|r IH|c s E IH] using replace_pair_scan_ind.
  - reflexivity.
  - rewrite str_in_pair_hit. discriminate.
  - rewrite str_in_cons, E. cbn [orb]. intros H.
    rewrite replace_pair_miss by exact E. rewrite IH by exact H. reflexivity.
Qed.

Lemma replace_pair_other_chars (s : str) :
  List.filter (fun c => negb (N.eqb c LF)) (replace [LF; LF] [LF] s)
  = List.filter (fun c => negb (N.eqb c LF)) s.
Proof.
  induction s as [|r IH|c s E IH] using replace_pair_scan_ind.
  - reflexivity.
  - rewrite replace_pair_hit. cbn [List.filter N.eqb LF negb Pos.eqb].
    exact IH.
  - rewrite replace_pair_miss by exact E. cbn [List.filter]. rewrite IH.
    reflexivity.
Qed.

Lemma replace_pair_run (k : nat) (s : str) :
  startswith [LF] s = false ->
  replace [LF; LF] [LF] (repeat LF k ++ s)
  = repeat LF ((k + 1) / 2) ++ replace [LF; LF] [LF] s.
Proof.
  intros Hs.
  assert (H : forall n k, (k <= n)%nat ->
            replace [LF; LF] [LF] (repeat LF k ++ s)
            = repeat LF ((k + 1) / 2) ++ replace [LF; LF] [LF] s).
  { clear k. induction n as [|n IH]; intros k Hk.
    - replace k with 0%nat by lia. reflexivity.
    - destruct k as [|[|k]].
      + reflexivity.
      + cbn [repeat app]. rewrite replace_pair_miss.
        * reflexivity.
        * rewrite startswith_LF_LF, Hs. apply andb_false_r.
      + cbn [repeat app]. rewrite replace_pair_hit, IH by lia.
        replace (S (S k) + 1)%nat with ((k + 1) + 1 * 2)%nat by lia.
        rewrite Nat.div_add by lia.
        replace ((k + 1) / 2 + 1)%nat with (S ((k + 1) / 2)) by lia.
        reflexivity. }
  apply (H k). lia.
Qed.

End NormalizeFacts.

Section SubstringFacts.

Lemma startswith_spec (p s : str) :
  startswith p s = true <-> exists post, s = p ++ post.
Proof.
  revert s. induction p as [|a p IH]; intros s.
  - split; [intros _; exists s; reflexivity | reflexivity].
  - destruct s as [|b s]; cbn [startswith].
    + split; [discriminate | intros [post H]; discriminate H].
    + rewrite andb_true_iff, N.eqb_eq, IH. split.
      * intros [-> [post ->]]. exists post. reflexivity.
      * intros [post H]. injection H as -> ->. split; [reflexivity | eauto].
Qed.

Lemma str_in_spec (sub s : str) :
  str_in sub s = true <-> exists pre post, s = pre ++ sub ++ post.
Proof.
  induction s as [|c s IH].
  - cbn [str_in]. rewrite orb_false_r, startswith_spec. split.
    + intros [post H]. exists [], post. exact H.
    + intros (pre & post & H). destruct pre as [|x pre]; [|discriminate H].
      exists post. exact H.
  - rewrite str_in_cons, orb_true_iff, startswith_spec, IH. split.
    + intros [[post H]|(pre & post & H)].
      * exists [], post. exact H.
      * exists (c :: pre), post. rewrite H. reflexivity.
    + intros (pre & post & H). destruct pre as [|x pre].
      * left. exists post. exact H.
      * right. injection H as -> ->. eauto.
Qed.

Lemma bool_eq_iff (a b : bool) : (a = true <-> b = true) -> a = b.
Proof.
  destruct a, b; intros [H1 H2]; try reflexivity.
  - symmetry. apply H1. reflexivity.
  - apply H2. reflexivity.
Qed.

Lemma str_in_rev (sub s : str) : str_in (rev sub) (rev s) = str_in sub s.
Proof.
  apply bool_eq_iff. rewrite !str_in_spec. split.
  - intros (pre & post & H). exists (rev post), (rev pre).
    apply (f_equal (@rev N)) in H. rewrite rev_involutive in H.
    rewrite H, !rev_app_distr, rev_involutive, app_assoc. reflexivity.
  - intros (pre & post & ->). exists (rev post), (rev pre).
    rewrite !rev_app_distr, app_assoc. reflexivity.
Qed.

(** A character that is not the first of [sub] cannot start an occurrence. *)
Lemma str_in_skip (c0 : N) (sub' : str) (x : N) (s : str) :
  x <> c0 -> str_in (c0 :: sub') (x :: s) = str_in (c0 :: sub') s.
Proof.
  intros Hx. rewrite str_in_cons. cbn [startswith].
  destruct (N.eqb_spec c0 x) as [->|_]; [contradiction | reflexivity].
Qed.

Lemma str_in_lstrip (c0 : N) (sub' : str) (s : str) :
  isspace c0 = false ->
  str_in (c0 :: sub') (lstrip s) = str_in (c0 :: sub') s.
Proof.
  intros Hc. induction s as [|x s IH]; [reflexivity|].
  cbn [lstrip]. destruct (isspace x) eqn:Hx; [|reflexivity].
  rewrite IH. symmetry. apply str_in_skip. intros ->. congruence.
Qed.

Lemma str_in_rstrip (sub : str) (cl : N) (sub' : str) (s : str) :
  rev sub = cl :: sub' -> isspace cl = false ->
  str_in sub (rstrip s) = str_in sub s.
Proof.
  intros Hrev Hc. unfold rstrip.
  rewrite <- (str_in_rev sub (rev _)), rev_involutive, Hrev.
  rewrite str_in_lstrip by exact Hc.
  rewrite <- Hrev. apply str_in_rev.
Qed.

Lemma str_in_snoc (sub : str) (cl : N) (sub' : str) (s : str) (x : N) :
  rev sub = cl :: sub' -> x <> cl ->
  str_in sub (s ++ [x]) = str_in sub s.
Proof.
  intros Hrev Hx.
  rewrite <- (str_in_rev sub (s ++ [x])), rev_app_distr, Hrev. cbn [rev app].
  rewrite str_in_skip by exact Hx.
  rewrite <- Hrev. apply str_in_rev.
Qed.

Lemma readline_no_LF (l : str) :
  Forall (fun c => c <> LF) l -> readline l = l.
Proof.
  induction 1 as [|c l Hc _ IH]; [reflexivity|].
  cbn [readline]. destruct (N.eqb_spec c LF); [contradiction|].
  rewrite IH. reflexivity.
Qed.

Lemma readline_first_line (l rest : str) :
  Forall (fun c => c <> LF) l -> readline (l ++ LF :: rest) = l ++ [LF].
Proof.
  induction 1 as [|c l Hc _ IH]; [reflexivity|].
  cbn [readline app]. destruct (N.eqb_spec c LF); [contradiction|].
  rewrite IH. reflexivity.
Qed.

End SubstringFacts.

(** ** More on the paper selector *)

Module DataLoaderFacts.
Import DataLoader DataLoaderSpec Observe.

(** Where nothing ends in a line feed before it, the scan starts afresh. *)
Lemma replace_pair_app (pre t : str) :
  List.last pre 0%N <> LF ->
  replace [LF; LF] [LF] (pre ++ t)
  = replace [LF; LF] [LF] pre ++ replace [LF; LF] [LF] t.
Proof.
  induction pre as [|r IH|c s E IH] using replace_pair_scan_ind; intros Hlast.
  - reflexivity.
  - cbn [app]. rewrite !replace_pair_hit.
    destruct r as [|d r].
    + exfalso. apply Hlast. reflexivity.
    + rewrite IH; [reflexivity|]. exact Hlast.
  - destruct s as [|d s].
    + cbn [app]. rewrite (replace_pair_miss c []) by exact E.
      rewrite replace_pair_miss; [reflexivity|].
      rewrite startswith_LF_LF. cbn [List.last] in Hlast.
      destruct (N.eqb_spec c LF); [contradiction | reflexivity].
    + cbn [app]. rewrite (replace_pair_miss c (d :: s ++ t)) by exact E.
      rewrite (replace_pair_miss c (d :: s)) by exact E.
      cbn [app] in IH. rewrite IH; [reflexivity|]. exact Hlast.
Qed.

(** X1. The text returned for an accepted version is never longer than the
    stored text, and its characters other than line feeds are those of the
    stored text, in order. *)
Theorem normalize_only_drops_line_feeds (content : str) :
  len (normalize content) <= len content /\
  List.filter (fun c => negb (N.eqb c LF)) (normalize content)
  = List.filter (fun c => negb (N.eqb c LF)) content.
Proof.
  unfold normalize, len. split.
  - pose proof (replace_pair_length content). lia.
  - apply replace_pair_other_chars.
Qed.

(** X2. The replacement leaves a text unchanged exactly when the text has
    no two line feeds in a row. *)
Theorem normalize_fixed_iff_no_pair (content : str) :
  normalize content = content <-> str_in [LF; LF] content = false.
Proof.
  unfold normalize. split.
  - intros Hfix. destruct (str_in [LF; LF] content) eqn:E; [|reflexivity].
    apply replace_pair_shrinks in E. rewrite Hfix in E. lia.
  - apply replace_pair_fixed.
Qed.

(** X3. A run of [k] line feeds, after text that does not end in a line
    feed and before text that does not start with one, comes out as a run
    of [ceil(k/2)] line feeds. *)
Theorem normalize_halves_runs (pre : str) (k : nat) (post : str) :
  List.last pre 0%N <> LF ->
  startswith [LF] post = false ->
  normalize (pre ++ repeat LF k ++ post)
  = normalize pre ++ repeat LF ((k + 1) / 2) ++ normalize post.
Proof.
  intros Hpre Hpost. unfold normalize.
  rewrite replace_pair_app by exact Hpre.
  rewrite replace_pair_run by exact Hpost. reflexivity.
Qed.

Lemma normalize_halves_runs_witness :
  normalize (pystr "Title" ++ repeat LF 5 ++ pystr "Body")
  = normalize (pystr "Title") ++ repeat LF ((5 + 1) / 2)
    ++ normalize (pystr "Body").
Proof.
  apply (normalize_halves_runs (pystr "Title") 5 (pystr "Body")).
  - vm_compute. discriminate.
  - reflexivity.
Defined.

(** X4. The heading test looks for the marker anywhere in the first line
    (stripping changes nothing), and at nothing after the first line
    feed. *)
Theorem section_test_reads_first_line_only (line rest : str) :
  Forall (fun c => c <> LF) line ->
  starts_with_latex_section line = str_in (pystr "\section") line /\
  starts_with_latex_section (line ++ LF :: rest)
  = str_in (pystr "\section") line.
Proof.
  intros Hline. unfold starts_with_latex_section, first_line, strip.
  assert (Hstrip : forall t : str,
             str_in (pystr "\section") (rstrip (lstrip t))
             = str_in (pystr "\section") t).
  { intros t.
    rewrite (str_in_rstrip (pystr "\section") 110%N
               (rev (pystr "\sectio"))) by reflexivity.
    apply (str_in_lstrip 92%N (pystr "section")). reflexivity. }
  rewrite !Hstrip. split.
  - rewrite readline_no_LF by exact Hline. reflexivity.
  - rewrite readline_first_line by exact Hline.
    apply (str_in_snoc (pystr "\section") 110%N (rev (pystr "\sectio"))).
    + reflexivity.
    + discriminate.
Qed.

Lemma section_test_reads_first_line_only_witness :
  starts_with_latex_section (pystr "  See \section{2}") = true /\
  starts_with_latex_section
    (pystr "Plain title" ++ LF :: pystr "\section{Introduction}") = false.
Proof.
  split.
  - refine (proj1 (section_test_reads_first_line_only
                     (pystr "  See \section{2}") [] _)).
    vm_compute. repeat constructor; discriminate.
  - refine (proj2 (section_test_reads_first_line_only
                     (pystr "Plain title") (pystr "\section{Introduction}") _)).
    vm_compute. repeat constructor; discriminate.
Defined.

Section Versions.

Variable fs : store.
Variables arxiv_id spiqa_path : str.
Variables min_size max_size : Z.

Local Abbreviation try := (try_version fs arxiv_id spiqa_path min_size max_size).
Local Abbreviation probe := (probe_versions fs arxiv_id spiqa_path min_size max_size).



End Versions.

(** Probing depends on the store, the identifier and the directory only
    through what each version's test returns. *)
Lemma probe_versions_ext
    (fs1 fs2 : store) (id1 id2 path1 path2 : str) (min_size max_size : Z)
    (l : list nat) :
  (forall v, In v l ->
     try_version fs1 id1 path1 min_size max_size v
     = try_version fs2 id2 path2 min_size max_size v) ->
  probe_versions fs1 id1 path1 min_size max_size l
  = probe_versions fs2 id2 path2 min_size max_size l.
Proof.
  induction l as [|v l IH]; intros H; [reflexivity|].
  cbn [probe_versions]. rewrite (H v) by (left; reflexivity).
  rewrite IH; [reflexivity|]. intros u Hu. apply H. right. exact Hu.
Qed.

Lemma path_join_absolute (a b : str) :
  startswith (pystr "/") b = true -> path_join a b = b.
Proof. unfold path_join. intros ->. reflexivity. Qed.

Lemma path_join_trailing_slash (a b : str) :
  a <> [] -> List.last a 0%N <> 47%N ->
  path_join (a ++ pystr "/") b = path_join a b.
Proof.
  intros Hne Hlast. unfold path_join.
  destruct (startswith (pystr "/") b); [reflexivity|].
  destruct a as [|x a]; [contradiction|].
  destruct (N.eqb_spec (List.last (x :: a) 0%N) 47%N) as [E|_]; [contradiction|].
  assert (Hl : List.last ((x :: a) ++ pystr "/") 0%N = 47%N)
    by apply last_last.
  destruct ((x :: a) ++ pystr "/") as [|y r] eqn:Ey; [discriminate Ey|].
  rewrite Hl, N.eqb_refl, <- Ey, <- app_assoc. reflexivity.
Qed.


(** X6. [_load_single_paper] reads nothing but the 14 probed paths: two
    stores that agree on them give the same result. *)
Theorem load_single_paper_reads_only_probed_paths
    (fs1 fs2 : store) (arxiv_id spiqa_path : str) (min_size max_size : Z) :
  (forall v, (1 <= v <= 14)%nat ->
     file_of fs1 arxiv_id spiqa_path v = file_of fs2 arxiv_id spiqa_path v) ->
  _load_single_paper fs1 arxiv_id spiqa_path min_size max_size
  = _load_single_paper fs2 arxiv_id spiqa_path min_size max_size.
Proof.
  intros Hsame. unfold _load_single_paper, versions.
  apply probe_versions_ext. intros v Hv%in_seq.
  unfold try_version. pose proof (Hsame v ltac:(lia)) as Hfile.
  unfold file_of in Hfile. rewrite Hfile. reflexivity.
Qed.

Lemma load_single_paper_reads_only_probed_paths_witness :
  _load_single_paper Fixtures.store_edge (pystr "F") (pystr "spiqa") 0 1024
  = _load_single_paper (delete (pystr "spiqa/Fv15.txt") Fixtures.store_edge)
      (pystr "F") (pystr "spiqa") 0 1024.
Proof.
  apply (load_single_paper_reads_only_probed_paths
           Fixtures.store_edge
           (delete (pystr "spiqa/Fv15.txt") Fixtures.store_edge)
           (pystr "F") (pystr "spiqa") 0 1024).
  intros v Hv.
  do 15 (destruct v as [|v]; [try lia; vm_compute; reflexivity|]).
  lia.
Defined.

(** X7. An identifier that begins with a slash makes every probed path
    absolute: the store directory plays no part in the result. *)
Theorem load_single_paper_absolute_identifier
    (fs : store) (arxiv_id path1 path2 : str) (min_size max_size : Z) :
  startswith (pystr "/") arxiv_id = true ->
  _load_single_paper fs arxiv_id path1 min_size max_size
  = _load_single_paper fs arxiv_id path2 min_size max_size.
Proof.
  intros Habs. unfold _load_single_paper.
  apply probe_versions_ext. intros v _. unfold try_version.
  assert (Hname : startswith (pystr "/") (file_name arxiv_id v) = true).
  { unfold file_name. destruct arxiv_id as [|c rest]; [discriminate Habs|].
    cbn [app]. exact Habs. }
  rewrite !path_join_absolute by exact Hname. reflexivity.
Qed.

Lemma load_single_paper_absolute_identifier_witness :
  _load_single_paper Fixtures.store_edge (pystr "/G") (pystr "spiqa") 0 1024
  = _load_single_paper Fixtures.store_edge (pystr "/G") (pystr "elsewhere")
      0 1024.
Proof.
  apply (load_single_paper_absolute_identifier
           Fixtures.store_edge (pystr "/G") (pystr "spiqa")
           (pystr "elsewhere") 0 1024).
  reflexivity.
Defined.

(** X8. A slash added to a non-empty store directory that does not end in
    one already changes nothing. *)
Theorem load_single_paper_trailing_slash
    (fs : store) (arxiv_id spiqa_path : str) (min_size max_size : Z) :
  spiqa_path <> [] ->
  List.last spiqa_path 0%N <> 47%N ->
  _load_single_paper fs arxiv_id (spiqa_path ++ pystr "/") min_size max_size
  = _load_single_paper fs arxiv_id spiqa_path min_size max_size.
Proof.
  intros Hne Hlast. unfold _load_single_paper.
  apply probe_versions_ext. intros v _. unfold try_version.
  rewrite path_join_trailing_slash by assumption. reflexivity.
Qed.

Lemma load_single_paper_trailing_slash_witness :
  _load_single_paper Fixtures.store_example (pystr "A")
    (pystr "spiqa" ++ pystr "/") 0 1024
  = _load_single_paper Fixtures.store_example (pystr "A") (pystr "spiqa")
      0 1024.
Proof.
  apply (load_single_paper_trailing_slash
           Fixtures.store_example (pystr "A") (pystr "spiqa") 0 1024).
  - discriminate.
  - vm_compute. discriminate.
Defined.

(** The candidate loop keeps the candidates that contribute, in order, and
    appends their blocks. *)
Lemma collect_filter
    (fs : store) (spiqa_path : str) (min_size max_size : Z)
    (arxiv_ids : list (str * str)) :
  forall (contents : str) (valid : list (str * str)),
    collect fs spiqa_path min_size max_size arxiv_ids (contents, valid)
    = (contents ++ List.concat
         (List.map (block_of fs spiqa_path min_size max_size)
            (List.filter (contributes fs spiqa_path min_size max_size)
               arxiv_ids)),
       valid ++ List.filter (contributes fs spiqa_path min_size max_size)
                  arxiv_ids).
Proof.
  induction arxiv_ids as [|[arxiv_id title] rest IH]; intros contents valid.
  - cbn. rewrite !app_nil_r. reflexivity.
  - assert (Hc : contributes fs spiqa_path min_size max_size (arxiv_id, title)
                 = match _load_single_paper fs arxiv_id spiqa_path min_size
                           max_size with
                   | Some (_ :: _) => true
                   | _ => false
                   end) by reflexivity.
    assert (Hb : block_of fs spiqa_path min_size max_size (arxiv_id, title)
                 = match _load_single_paper fs arxiv_id spiqa_path min_size
                           max_size with
                   | Some content => block arxiv_id title content
                   | None => []
                   end) by reflexivity.
    cbn [collect List.filter].
    destruct (_load_single_paper fs arxiv_id spiqa_path min_size max_size)
      as [[|c content]|] eqn:E; rewrite Hc.
    + apply IH.
    + rewrite IH. cbn [List.map List.concat]. rewrite Hb, <- !app_assoc.
      reflexivity.
    + apply IH.
Qed.

(** What [get_paper_content] returns, in terms of the contributing
    candidates. *)
Lemma get_paper_content_filter
    (cfg : config) (fs : store) (arxiv_ids : list (str * str)) :
  let valid :=
    List.filter
      (contributes fs (spiqa_path (data cfg)) (min_size cfg) (max_size cfg))
      arxiv_ids in
  let contents :=
    List.concat
      (List.map
         (block_of fs (spiqa_path (data cfg)) (min_size cfg) (max_size cfg))
         valid) in
  get_paper_content cfg fs arxiv_ids
  = if len valid <=? 1 then (None, None)
    else if len contents >? max_content_length (processing cfg)
         then (None, None)
         else (Some contents, Some valid).
Proof.
  cbv zeta. unfold get_paper_content. rewrite collect_filter. reflexivity.
Qed.

(** X9. The contributing list of a successful selection is exactly the
    candidates for which a non-empty text was loaded, in the order and with
    the repetitions of the input, and the combined text is their labeled
    blocks in that order. *)
Theorem get_paper_content_contributors
    (cfg : config) (fs : store) (arxiv_ids : list (str * str))
    (contents : str) (valid : list (str * str)) :
  get_paper_content cfg fs arxiv_ids = (Some contents, Some valid) ->
  valid
  = List.filter
      (contributes fs (spiqa_path (data cfg)) (min_size cfg) (max_size cfg))
      arxiv_ids /\
  contents
  = List.concat
      (List.map
         (block_of fs (spiqa_path (data cfg)) (min_size cfg) (max_size cfg))
         valid).
Proof.
  rewrite get_paper_content_filter. cbv zeta.
  destruct (_ <=? 1); [discriminate|].
  destruct (_ >? _); [discriminate|].
  intros [= <- <-]. split; reflexivity.
Qed.

Lemma get_paper_content_contributors_witness :
  [(pystr "A", pystr "T1"); (pystr "B", pystr "T2")]
  = List.filter
      (contributes Fixtures.store_example
         (spiqa_path (data Fixtures.cfg_small))
         (min_size Fixtures.cfg_small) (max_size Fixtures.cfg_small))
      [(pystr "A", pystr "T1"); (pystr "B", pystr "T2");
       (pystr "C", pystr "T3")].
Proof.
  refine (proj1 (get_paper_content_contributors
                   Fixtures.cfg_small Fixtures.store_example
                   [(pystr "A", pystr "T1"); (pystr "B", pystr "T2");
                    (pystr "C", pystr "T3")]
                   (block (pystr "A") (pystr "T1")
                      (normalize Fixtures.paper_A_v2)
                    ++ block (pystr "B") (pystr "T2")
                         (normalize Fixtures.paper_B_v1))
                   _ _)).
  vm_compute. reflexivity.
Defined.

(** X10. With fewer than two candidates the selection always fails. *)
Theorem get_paper_content_needs_two_candidates
    (cfg : config) (fs : store) (arxiv_ids : list (str * str)) :
  len arxiv_ids < 2 ->
  get_paper_content cfg fs arxiv_ids = (None, None).
Proof.
  intros Hfew. rewrite get_paper_content_filter. cbv zeta.
  destruct (Z.leb_spec
              (len (List.filter
                      (contributes fs (spiqa_path (data cfg)) (min_size cfg)
                         (max_size cfg)) arxiv_ids)) 1) as [_|Hmany];
    [reflexivity|].
  unfold len in *.
  pose proof (List.filter_length_le
                (contributes fs (spiqa_path (data cfg)) (min_size cfg)
                   (max_size cfg)) arxiv_ids).
  lia.
Qed.

Lemma get_paper_content_needs_two_candidates_witness :
  get_paper_content Fixtures.cfg_small Fixtures.store_example
    [(pystr "A", pystr "T1")]
  = (None, None).
Proof.
  apply (get_paper_content_needs_two_candidates
           Fixtures.cfg_small Fixtures.store_example [(pystr "A", pystr "T1")]).
  vm_compute. reflexivity.
Defined.

(** X11. An empty text ends the probing like any accepted text, and the
    candidate is then dropped: when the lowest acceptable version of a
    candidate is an empty file, the candidate is in no contributing list,
    whatever its later versions hold. *)
Theorem get_paper_content_empty_version_drops_candidate
    (cfg : config) (fs : store) (arxiv_ids : list (str * str))
    (arxiv_id title : str) (v : nat) (f : file) :
  (1 <= v <= 14)%nat ->
  (forall u, (1 <= u < v)%nat ->
     try_version fs arxiv_id (spiqa_path (data cfg)) (min_size cfg)
       (max_size cfg) u = None) ->
  file_of fs arxiv_id (spiqa_path (data cfg)) v = Some f ->
  size_out_of_range (min_size cfg) (max_size cfg) (st_size f) = false ->
  text f = Some [] ->
  _load_single_paper fs arxiv_id (spiqa_path (data cfg)) (min_size cfg)
    (max_size cfg) = Some [] /\
  forall contents valid,
    get_paper_content cfg fs arxiv_ids = (Some contents, Some valid) ->
    ~ In (arxiv_id, title) valid.
Proof.
  intros Hv Hbefore Hf Hs Ht.
  assert (Hload : _load_single_paper fs arxiv_id (spiqa_path (data cfg))
                    (min_size cfg) (max_size cfg) = Some []).
  { unfold _load_single_paper. rewrite (versions_split v) by lia.
    rewrite probe_versions_app, probe_versions_skipped.
    - cbn [probe_versions].
      rewrite (try_version_accepted _ _ _ _ _ v f []); auto.
    - intros u Hu%in_seq. apply Hbefore. lia. }
  split; [exact Hload|].
  intros contents valid Hget Hin.
  rewrite get_paper_content_filter in Hget. cbv zeta in Hget.
  destruct (_ <=? 1); [discriminate|].
  destruct (_ >? _); [discriminate|].
  injection Hget as _ <-.
  apply List.filter_In in Hin as [_ Hc].
  unfold contributes in Hc. cbn [fst] in Hc. rewrite Hload in Hc.
  discriminate Hc.
Qed.

Lemma get_paper_content_empty_version_drops_candidate_witness :
  _load_single_paper Fixtures.store_edge (pystr "E")
    (spiqa_path (data Fixtures.cfg_small)) (min_size Fixtures.cfg_small)
    (max_size Fixtures.cfg_small) = Some [] /\
  forall contents valid,
    get_paper_content Fixtures.cfg_small Fixtures.store_edge
      [(pystr "E", pystr "T"); (pystr "/G", pystr "T"); (pystr "/G", pystr "T")]
    = (Some contents, Some valid) ->
    ~ In (pystr "E", pystr "T") valid.
Proof.
  apply (get_paper_content_empty_version_drops_candidate
           Fixtures.cfg_small Fixtures.store_edge
           [(pystr "E", pystr "T"); (pystr "/G", pystr "T");
            (pystr "/G", pystr "T")]
           (pystr "E") (pystr "T") 1 (Fixtures.ascii_file [])).
  - lia.
  - intros u Hu. lia.
  - vm_compute. reflexivity.
  - vm_compute. reflexivity.
  - reflexivity.
Defined.

(** X12. Candidates are not deduplicated: a contributing candidate listed
    twice counts as two papers and its block is taken twice. *)
Theorem get_paper_content_keeps_duplicates
    (cfg : config) (fs : store) (arxiv_id title content : str) :
  _load_single_paper fs arxiv_id (spiqa_path (data cfg)) (min_size cfg)
    (max_size cfg) = Some content ->
  content <> [] ->
  2 * len (block arxiv_id title content)
    <= max_content_length (processing cfg) ->
  get_paper_content cfg fs [(arxiv_id, title); (arxiv_id, title)]
  = (Some (block arxiv_id title content ++ block arxiv_id title content),
     Some [(arxiv_id, title); (arxiv_id, title)]).
Proof.
  intros Hload Hne Hfit.
  rewrite get_paper_content_filter. cbv zeta.
  cbn [List.filter]. unfold contributes. cbn [fst]. rewrite Hload.
  destruct content as [|c content]; [contradiction|].
  cbn [List.map List.concat]. unfold block_of. cbn [fst snd].
  rewrite Hload, app_nil_r.
  change (len [(arxiv_id, title); (arxiv_id, title)] <=? 1) with false.
  cbv match.
  replace (_ >? _) with false; [reflexivity|].
  symmetry. rewrite Z.gtb_ltb. apply Z.ltb_ge.
  unfold len in *. rewrite List.length_app. lia.
Qed.

Lemma get_paper_content_keeps_duplicates_witness :
  get_paper_content Fixtures.cfg_small Fixtures.store_example
    [(pystr "A", pystr "T1"); (pystr "A", pystr "T1")]
  = (Some (block (pystr "A") (pystr "T1") (normalize Fixtures.paper_A_v2)
           ++ block (pystr "A") (pystr "T1") (normalize Fixtures.paper_A_v2)),
     Some [(pystr "A", pystr "T1"); (pystr "A", pystr "T1")]).
Proof.
  apply (get_paper_content_keeps_duplicates
           Fixtures.cfg_small Fixtures.store_example (pystr "A") (pystr "T1")
           (normalize Fixtures.paper_A_v2)).
  - vm_compute. reflexivity.
  - vm_compute. discriminate.
  - vm_compute. discriminate.
Defined.

(** X24. A file that a version's checks reject, for whatever reason (size,
    unreadable text, section heading), counts as a missing file: removing
    it from the store does not change the result. *)
Theorem load_single_paper_rejected_as_absent
    (fs : store) (arxiv_id spiqa_path : str) (min_size max_size : Z)
    (v : nat) :
  try_version fs arxiv_id spiqa_path min_size max_size v = None ->
  _load_single_paper
    (delete (path_join spiqa_path (file_name arxiv_id v)) fs)
    arxiv_id spiqa_path min_size max_size
  = _load_single_paper fs arxiv_id spiqa_path min_size max_size.
Proof.
  intros Hrej. unfold _load_single_paper.
  apply probe_versions_ext. intros u _. unfold try_version.
  destruct (decide (path_join spiqa_path (file_name arxiv_id v)
                    = path_join spiqa_path (file_name arxiv_id u))) as [E|E].
  - rewrite <- E, lookup_delete_eq. symmetry. exact Hrej.
  - rewrite lookup_delete_ne by exact E. reflexivity.
Qed.

Lemma load_single_paper_rejected_as_absent_witness :
  _load_single_paper
    (delete (path_join (pystr "spiqa") (file_name (pystr "A") 1))
       Fixtures.store_example)
    (pystr "A") (pystr "spiqa") 0 1024
  = _load_single_paper Fixtures.store_example (pystr "A") (pystr "spiqa")
      0 1024.
Proof.
  apply (load_single_paper_rejected_as_absent
           Fixtures.store_example (pystr "A") (pystr "spiqa") 0 1024 1).
  vm_compute. reflexivity.
Defined.

(** X25. Raising [max_content_length] never loses a selection: a selection
    that succeeds under one configuration succeeds, with the same result,
    under any configuration that differs only by a larger cap. *)
Theorem get_paper_content_monotone_in_cap
    (cfg cfg' : config) (fs : store) (arxiv_ids : list (str * str))
    (contents : str) (valid : list (str * str)) :
  spiqa_path (data cfg') = spiqa_path (data cfg) ->
  min_file_size (processing cfg') = min_file_size (processing cfg) ->
  max_file_size (processing cfg') = max_file_size (processing cfg) ->
  max_content_length (processing cfg)
    <= max_content_length (processing cfg') ->
  get_paper_content cfg fs arxiv_ids = (Some contents, Some valid) ->
  get_paper_content cfg' fs arxiv_ids = (Some contents, Some valid).
Proof.
  intros Hpath Hmin Hmax Hcap.
  rewrite !get_paper_content_filter. cbv zeta.
  unfold min_size, max_size. rewrite Hpath, Hmin, Hmax.
  set (kept := List.filter _ arxiv_ids).
  set (combined := List.concat _).
  destruct (len kept <=? 1); [discriminate|].
  rewrite !Z.gtb_ltb.
  destruct (Z.ltb_spec (max_content_length (processing cfg)) (len combined))
    as [Hlong|Hfits]; [discriminate|].
  destruct (Z.ltb_spec (max_content_length (processing cfg')) (len combined))
    as [Hlong'|Hfits']; [lia|].
  intros Hget. exact Hget.
Qed.

Lemma get_paper_content_monotone_in_cap_witness :
  get_paper_content
    {| llm := Fixtures.llm_openai; data := Fixtures.data_example;
       processing :=
         {| min_file_size := 0; max_file_size := 1;
            max_content_length := 5000; max_retries := 4;
            base_delay := 1; max_delay := 1 |} |}
    Fixtures.store_example
    [(pystr "A", pystr "T1"); (pystr "B", pystr "T2")]
  = (Some (block (pystr "A") (pystr "T1") (normalize Fixtures.paper_A_v2)
           ++ block (pystr "B") (pystr "T2") (normalize Fixtures.paper_B_v1)),
     Some [(pystr "A", pystr "T1"); (pystr "B", pystr "T2")]).
Proof.
  apply (get_paper_content_monotone_in_cap Fixtures.cfg_small).
  - reflexivity.
  - reflexivity.
  - reflexivity.
  - vm_compute. discriminate.
  - vm_compute. reflexivity.
Defined.

End DataLoaderFacts.

(** ** The community file *)

Module CommunityDataFacts.
Import CommunityData.

(** X13. [load_community_data] returns exactly when [open] succeeds on the
    configured path and the text decodes and parses to either an object
    with a [community_id] key, returned as a one-element list, or a list,
    returned as it is (its elements are not looked at). It raises its own
    [FileNotFoundError], whose message names the configured path, exactly
    when [open] raises [FileNotFoundError]; any other [OSError] of [open]
    (a [NotADirectoryError], say) leaves the function as it is; and it
    raises the format [ValueError] exactly when the parsed value is neither
    of the two shapes. *)
Theorem load_community_data_outcomes
    (open_ : str -> opened) (json_load : str -> option json) (cfg : config) :
  (forall communities,
     load_community_data open_ json_load cfg = Returned communities <->
     exists content parsed,
       open_ (community_data (data cfg)) = Opened (Some content) /\
       json_load content = Some parsed /\
       ((exists entries,
           parsed = JDict entries /\
           key_in (pystr "community_id") entries = true /\
           communities = [parsed]) \/
        parsed = JList communities)) /\
  (forall msg,
     load_community_data open_ json_load cfg = Raised (FileNotFoundError msg)
     <->
     open_ (community_data (data cfg)) = NoSuchFile /\
     msg = pystr "Community data file not found: "
           ++ community_data (data cfg) ++ [LF]
           ++ pystr "Please provide the community detection results file.") /\
  (load_community_data open_ json_load cfg = Raised OSError_ <->
   open_ (community_data (data cfg)) = OtherOSError) /\
  (forall msg,
     load_community_data open_ json_load cfg = Raised (ValueError msg) <->
     msg = pystr "Invalid community data format" /\
     exists content parsed,
       open_ (community_data (data cfg)) = Opened (Some content) /\
       json_load content = Some parsed /\
       (forall items, parsed <> JList items) /\
       (forall entries,
          parsed = JDict entries ->
          key_in (pystr "community_id") entries = false)).
Proof.
  unfold load_community_data. cbv zeta.
  destruct (open_ (community_data (data cfg))) as [[content|]| |] eqn:Hopen.
  2:{ split; [|split; [|split]].
      - intros communities. split; [discriminate|].
        intros (c & d & H & _). discriminate H.
      - intros msg. split; [discriminate|]. intros [H _]. discriminate H.
      - split; discriminate.
      - intros msg. split; [discriminate|].
        intros [_ (c & d & H & _)]. discriminate H. }
  2:{ split; [|split; [|split]].
      - intros communities. split; [discriminate|].
        intros (c & d & H & _). discriminate H.
      - intros msg. split.
        + intros [= <-]. split; reflexivity.
        + intros [_ ->]. reflexivity.
      - split; discriminate.
      - intros msg. split; [discriminate|].
        intros [_ (c & d & H & _)]. discriminate H. }
  2:{ split; [|split; [|split]].
      - intros communities. split; [discriminate|].
        intros (c & d & H & _). discriminate H.
      - intros msg. split; [discriminate|]. intros [H _]. discriminate H.
      - split; reflexivity.
      - intros msg. split; [discriminate|].
        intros [_ (c & d & H & _)]. discriminate H. }
  destruct (json_load content) as [parsed|] eqn:Hparse.
  2:{ split; [|split; [|split]].
      - intros communities. split; [discriminate|].
        intros (c & d & [= <-] & H & _). congruence.
      - intros msg. split; [discriminate|]. intros [H _]. discriminate H.
      - split; discriminate.
      - intros msg. split; [discriminate|].
        intros [_ (c & d & [= <-] & H & _)]. congruence. }
  split; [|split; [|split]].
  - intros communities. split.
    + intros H. exists content, parsed. repeat split; try assumption.
      destruct parsed as [| | | | |items|entries]; try discriminate H.
      * right. injection H as <-. reflexivity.
      * destruct (key_in _ entries) eqn:Hk; [|discriminate H].
        left. injection H as <-. exists entries. auto.
    + intros (c & d & [= <-] & Hd & Hshape).
      assert (d = parsed) by congruence. subst d.
      destruct Hshape as [(entries & -> & Hk & ->)| ->].
      * rewrite Hk. reflexivity.
      * reflexivity.
  - intros msg. split.
    + destruct parsed as [| | | | |items|entries]; try discriminate.
      destruct (key_in _ entries); discriminate.
    + intros [H _]. discriminate H.
  - split; [|discriminate].
    destruct parsed as [| | | | |items|entries]; try discriminate.
    destruct (key_in _ entries); discriminate.
  - intros msg. split.
    + intros H.
      assert (Hmsg : msg = pystr "Invalid community data format").
      { destruct parsed as [| | | | |items|entries];
          try (injection H as <-; reflexivity); try discriminate H.
        destruct (key_in _ entries); [discriminate H|].
        injection H as <-. reflexivity. }
      split; [exact Hmsg|].
      exists content, parsed. repeat split; try assumption.
      * intros items ->. discriminate H.
      * intros entries ->. destruct (key_in _ entries); [discriminate H|].
        reflexivity.
    + intros [-> (c & d & [= <-] & Hd & Hlist & Hdict)].
      assert (d = parsed) by congruence. subst d.
      destruct parsed as [| | | | |items|entries]; try reflexivity.
      * exfalso. apply (Hlist items). reflexivity.
      * rewrite (Hdict entries eq_refl). reflexivity.
Qed.

(** An empty list of communities is a valid file. *)
Example load_community_data_empty_list :
  load_community_data Fixtures.open_communities Fixtures.json_load_example
    Fixtures.cfg_small
  = Returned [].
Proof. vm_compute. reflexivity. Qed.

End CommunityDataFacts.

(** ** More on the dispatch and retry layer *)

Module LLMClientFacts.
Import LLMClient LLMClientSpec Observe.

Lemma sleeps_app (w1 w2 : world) : sleeps (w1 ++ w2) = sleeps w1 ++ sleeps w2.
Proof.
  induction w1 as [|ev w1 IH]; [reflexivity|].
  destruct ev; cbn [app sleeps]; rewrite IH; reflexivity.
Qed.

Lemma requests_app (w1 w2 : world) :
  requests (w1 ++ w2) = (requests w1 + requests w2)%nat.
Proof.
  induction w1 as [|ev w1 IH]; [reflexivity|].
  destruct ev; cbn [app requests]; rewrite IH; reflexivity.
Qed.

(** X14. Construction succeeds exactly when the lowercased tag is one of
    the three supported ones and the keys that provider needs are present:
    [api_key] for [openai] ([api_base] is optional there), [api_key],
    [api_base] and [api_version] for [azure_openai], [project_id] and
    [region] for [anthropic_vertex]; the client is built from them. *)
Theorem initialize_client_succeeds_iff
    (lower : str -> str) (cfg : config) (c : client) :
  _initialize_client lower cfg = Ok c <->
  (lower (provider (llm cfg)) = pystr "openai" /\
   exists key,
     api_key (llm cfg) = Some key /\ c = OpenAI key (api_base (llm cfg))) \/
  (lower (provider (llm cfg)) = pystr "azure_openai" /\
   exists key endpoint version,
     api_key (llm cfg) = Some key /\ api_base (llm cfg) = Some endpoint /\
     api_version (llm cfg) = Some version /\
     c = AzureOpenAI key endpoint version) \/
  (lower (provider (llm cfg)) = pystr "anthropic_vertex" /\
   exists project reg,
     project_id (llm cfg) = Some project /\ region (llm cfg) = Some reg /\
     c = AnthropicVertex project reg).
Proof.
  unfold _initialize_client, getitem. split.
  - destruct (str_eqb _ (pystr "openai")) eqn:E1.
    { apply str_eqb_eq in E1. intros H. left. split; [exact E1|].
      destruct (api_key (llm cfg)) as [key|]; [|discriminate].
      injection H as <-. eauto. }
    destruct (str_eqb _ (pystr "azure_openai")) eqn:E2.
    { apply str_eqb_eq in E2. intros H. right. left. split; [exact E2|].
      destruct (api_key (llm cfg)) as [key|]; [|discriminate].
      destruct (api_base (llm cfg)) as [endpoint|]; [|discriminate].
      destruct (api_version (llm cfg)) as [version|]; [|discriminate].
      injection H as <-. exists key, endpoint, version. auto. }
    destruct (str_eqb _ (pystr "anthropic_vertex")) eqn:E3.
    { apply str_eqb_eq in E3. intros H. right. right. split; [exact E3|].
      destruct (project_id (llm cfg)) as [project|]; [|discriminate].
      destruct (region (llm cfg)) as [reg|]; [|discriminate].
      injection H as <-. exists project, reg. auto. }
    discriminate.
  - intros [[-> (key & -> & ->)]
           |[[-> (key & endpoint & version & -> & -> & -> & ->)]
            |[-> (project & reg & -> & -> & ->)]]]; reflexivity.
Qed.

(** X15. Construction fails with the "unsupported provider" [ValueError]
    exactly when the lowercased tag is none of the three supported ones,
    and the message names that lowercased tag. *)
Theorem initialize_client_unsupported_iff
    (lower : str -> str) (cfg : config) (msg : str) :
  _initialize_client lower cfg = Raise (ValueError msg) <->
  lower (provider (llm cfg)) <> pystr "openai" /\
  lower (provider (llm cfg)) <> pystr "azure_openai" /\
  lower (provider (llm cfg)) <> pystr "anthropic_vertex" /\
  msg = pystr "Unsupported provider: " ++ lower (provider (llm cfg)).
Proof.
  unfold _initialize_client, getitem, str_eqb. split.
  - repeat case_bool_decide.
    + destruct (api_key (llm cfg)); discriminate.
    + destruct (api_key (llm cfg)); [|discriminate].
      destruct (api_base (llm cfg)); [|discriminate].
      destruct (api_version (llm cfg)); discriminate.
    + destruct (project_id (llm cfg)); [|discriminate].
      destruct (region (llm cfg)); discriminate.
    + intros [= <-]. auto.
  - intros (H1 & H2 & H3 & ->).
    repeat case_bool_decide; try contradiction. reflexivity.
Qed.

Section Dispatching.

Variable lower : str -> str.
Variable provider_api : world -> client -> api_call -> result str.

Local Abbreviation __init__ := (__init__ lower).
Local Abbreviation generate_response := (generate_response lower provider_api).

(** X16. On the [openai] and [azure_openai] variants the structured-JSON
    flag is passed on: the request sent carries
    [response_format = json_object] exactly when the flag is set, and the
    outcome is the provider's answer to that request. *)
Theorem generate_response_json_flag_passed_on_openai
    (cfg : config) (self : instance) (s u : str) (j : bool) (w : world) :
  __init__ cfg = Ok self ->
  lower (provider (llm cfg)) = pystr "openai" \/
  lower (provider (llm cfg)) = pystr "azure_openai" ->
  let call :=
    chat_completions_create (model (llm cfg))
      [ {| role := pystr "system"; content := s |};
        {| role := pystr "user"; content := u |} ]
      (temperature (llm cfg)) (max_tokens (llm cfg))
      (if j then Some (pystr "json_object") else None) in
  generate_response self s u j w
  = (provider_api (w ++ [EvDispatch]) (self_client self) call,
     (w ++ [EvDispatch]) ++ [EvRequest (self_client self) call]).
Proof.
  intros Hinit Htag. cbv zeta.
  apply init_instance in Hinit as [Hcfg Hclient].
  apply initialize_client_supported in Hclient.
  destruct self as [cfg' c]. cbn [self_config self_client] in *. subst cfg'.
  rewrite generate_response_unfold. cbn [self_config]. cbv zeta.
  destruct Hclient as [[Hp (key & base & ->)]
                      |[[Hp (key & endpoint & version & ->)]
                       |[Hp _]]].
  - rewrite Hp. reflexivity.
  - rewrite Hp. reflexivity.
  - destruct Htag as [Hq|Hq]; rewrite Hp in Hq; discriminate Hq.
Qed.

End Dispatching.

Lemma generate_response_json_flag_passed_on_openai_witness :
  generate_response Fixtures.ascii_lower Fixtures.api_ok
    Fixtures.client_openai (pystr "system") (pystr "user") true []
  = (Ok (pystr "{}"),
     [EvDispatch;
      EvRequest (self_client Fixtures.client_openai)
        (chat_completions_create (pystr "gpt-4o")
           [ {| role := pystr "system"; content := pystr "system" |};
             {| role := pystr "user"; content := pystr "user" |} ]
           (7 # 10) 4096 (Some (pystr "json_object")))]).
Proof.
  apply (generate_response_json_flag_passed_on_openai
           Fixtures.ascii_lower Fixtures.api_ok Fixtures.cfg_small
           Fixtures.client_openai (pystr "system") (pystr "user") true []).
  - vm_compute. reflexivity.
  - left. vm_compute. reflexivity.
Defined.

(** X17. The delay before the jitter never decreases from one attempt to
    the next and never exceeds [max_delay], for a non-negative base
    delay. *)
Theorem backoff_cap_monotone (max_delay base_delay : Q) (a b : Z) :
  (0 <= base_delay)%Q ->
  0 <= a <= b ->
  (backoff_cap max_delay base_delay a <= backoff_cap max_delay base_delay b
   /\ backoff_cap max_delay base_delay b <= max_delay)%Q.
Proof.
  intros Hbase Hab. unfold backoff_cap. split; [|apply Q.le_min_l].
  apply Q.min_le_compat_l.
  assert (Hpow : (inject_Z (2 ^ a) <= inject_Z (2 ^ b))%Q).
  { rewrite <- Zle_Qle. apply Z.pow_le_mono_r; lia. }
  nra.
Qed.

Lemma backoff_cap_monotone_witness :
  (backoff_cap 60 1 5 <= backoff_cap 60 1 6 /\ backoff_cap 60 1 6 <= 60)%Q.
Proof.
  apply (backoff_cap_monotone 60 1 5 6).
  - discriminate.
  - lia.
Defined.

Section Retrying.

Variable lower : str -> str.
Variable provider_api : world -> client -> api_call -> result str.
Variable uniform01 : world -> Q.

Local Abbreviation generate_response := (generate_response lower provider_api).
Local Abbreviation retry_loop := (retry_loop lower provider_api uniform01).
Local Abbreviation generate_with_retry :=
  (generate_with_retry lower provider_api uniform01).

(** What one invocation of [generate_response] adds to the history. *)
Lemma generate_response_events (self : instance) (s u : str) (j : bool)
    (w : world) :
  exists tr,
    snd (generate_response self s u j w) = w ++ EvDispatch :: tr /\
    dispatches tr = 0%nat /\ sleeps tr = [] /\ (requests tr <= 1)%nat.
Proof.
  rewrite generate_response_unfold. cbv zeta.
  destruct (_ || _).
  - unfold _generate_openai_response, send, raise.
    destruct (self_client self); cbn [snd]; rewrite <- ?app_assoc;
      eexists; (split; [reflexivity | repeat split; cbn; lia]).
  - destruct (str_eqb _ _).
    + unfold _generate_anthropic_response, send, raise.
      destruct (self_client self); cbn [snd]; rewrite <- ?app_assoc;
        eexists; (split; [reflexivity | repeat split; cbn; lia]).
    + cbn [snd]. eexists. split; [reflexivity | repeat split; cbn; lia].
Qed.



Section Attempts.

Variable self : instance.
Variables s u : str.
Variable j : bool.
Variable n : Z.
Variables base cap : Q.

Lemma retry_loop_attempt_returns (attempt : Z) (rest : list Z) (w w1 : world)
    (text : str) :
  generate_response self s u j w = (Ok text, w1) ->
  retry_loop self s u j n base cap (attempt :: rest) w = (Ok text, w1).
Proof. intros H. rewrite retry_loop_cons, H. reflexivity. Qed.

Lemma retry_loop_attempt_not_caught (attempt : Z) (rest : list Z)
    (w w1 : world) (e : exn) :
  generate_response self s u j w = (Raise e, w1) ->
  is_Exception e = false ->
  retry_loop self s u j n base cap (attempt :: rest) w = (Raise e, w1).
Proof. intros H He. rewrite retry_loop_cons, H, He. reflexivity. Qed.

Lemma retry_loop_attempt_final (rest : list Z) (w w1 : world) (e : exn) :
  generate_response self s u j w = (Raise e, w1) ->
  retry_loop self s u j n base cap ((n - 1) :: rest) w = (Raise e, w1).
Proof.
  intros H. rewrite retry_loop_cons, H, Z.eqb_refl.
  destruct (is_Exception e); reflexivity.
Qed.

Lemma retry_loop_attempt_retried (attempt : Z) (rest : list Z)
    (w w1 : world) (e : exn) :
  generate_response self s u j w = (Raise e, w1) ->
  is_Exception e = true ->
  attempt <> n - 1 ->
  let delay := backoff_delay cap base attempt (uniform01 w1) in
  retry_loop self s u j n base cap (attempt :: rest) w
  = if Qle_bool 0 delay
    then retry_loop self s u j n base cap rest
           (((w1 ++ [EvUniform (uniform01 w1)]) ++ [EvPrint e delay])
            ++ [EvSleep delay])
    else (Raise (ValueError (pystr "sleep length must be non-negative")),
          (w1 ++ [EvUniform (uniform01 w1)]) ++ [EvPrint e delay]).
Proof.
  intros H He Hne. rewrite retry_loop_cons, H, He.
  destruct (Z.eqb_spec attempt (n - 1)); [contradiction | reflexivity].
Qed.



(** From any history the loop records only sleeps that [time.sleep]
    accepted and that stay within the cap plus the jitter bound. *)
Lemma retry_loop_sleeps_bounded :
  draws_in_unit_interval uniform01 ->
  forall (attempts : list Z) (w : world),
    exists tr,
      snd (retry_loop self s u j n base cap attempts w) = w ++ tr /\
      Forall (fun d => 0 <= d /\ d <= cap + 1)%Q (sleeps tr).
Proof.
  intros Hdraws. induction attempts as [|attempt rest IH]; intros w.
  - exists []. cbn. rewrite app_nil_r. split; [reflexivity | constructor].
  - destruct (generate_response_events self s u j w)
      as (tr1 & Hw1 & _ & Hs1 & _).
    destruct (generate_response self s u j w) as [[text|e] w1] eqn:E;
      cbn [snd] in Hw1.
    + rewrite (retry_loop_attempt_returns _ _ w w1 text E). cbn [snd].
      exists (EvDispatch :: tr1). split; [exact Hw1|].
      cbn [sleeps]. rewrite Hs1. constructor.
    + assert (Hstop : exists tr,
                 w1 = w ++ tr /\
                 Forall (fun d => 0 <= d /\ d <= cap + 1)%Q (sleeps tr)).
      { exists (EvDispatch :: tr1). split; [exact Hw1|].
        cbn [sleeps]. rewrite Hs1. constructor. }
      destruct (is_Exception e) eqn:He.
      2:{ rewrite (retry_loop_attempt_not_caught _ _ w w1 e E He).
          exact Hstop. }
      destruct (Z.eq_dec attempt (n - 1)) as [->|Hne].
      { rewrite (retry_loop_attempt_final _ w w1 e E). exact Hstop. }
      rewrite (retry_loop_attempt_retried _ _ w w1 e E He Hne). cbv zeta.
      set (delay := backoff_delay cap base attempt (uniform01 w1)).
      destruct (Qle_bool 0 delay) eqn:Hdelay.
      * destruct (IH (((w1 ++ [EvUniform (uniform01 w1)])
                        ++ [EvPrint e delay]) ++ [EvSleep delay]))
          as (tr & Hw & Hs).
        exists ((EvDispatch :: tr1)
                ++ [EvUniform (uniform01 w1); EvPrint e delay; EvSleep delay]
                ++ tr).
        split.
        -- rewrite Hw, Hw1, <- !app_assoc. reflexivity.
        -- rewrite !sleeps_app. cbn [sleeps app]. rewrite Hs1. cbn [app].
           constructor; [|exact Hs].
           apply Qle_bool_iff in Hdelay. split; [exact Hdelay|].
           unfold delay, backoff_delay.
           pose proof (Q.le_min_l cap (base * inject_Z (2 ^ attempt))).
           destruct (Hdraws w1). lra.
      * cbn [snd].
        exists ((EvDispatch :: tr1)
                ++ [EvUniform (uniform01 w1); EvPrint e delay]).
        split.
        -- rewrite Hw1, <- !app_assoc. reflexivity.
        -- rewrite !sleeps_app. cbn [sleeps app]. rewrite Hs1. constructor.
Qed.

End Attempts.

Lemma range_cons (n : Z) :
  1 <= n ->
  range n = List.map Z.of_nat (seq 0 (S (Z.to_nat (n - 1)))).
Proof.
  intros Hn. unfold range. f_equal. f_equal. lia.
Qed.



(** X20. An exception that is not an [Exception] (a [KeyboardInterrupt])
    is not retried: it leaves [generate_with_retry] after the first
    dispatch, without a draw or a sleep. *)
Theorem generate_with_retry_base_exception_not_retried
    (self : instance) (s u : str) (j : bool) (w : world) (e : exn) :
  1 <= max_retries (processing (self_config self)) ->
  fst (generate_response self s u j w) = Raise e ->
  is_Exception e = false ->
  generate_with_retry self s u j w = generate_response self s u j w.
Proof.
  intros Hn Hraise He. unfold LLMClient.generate_with_retry. cbv zeta.
  rewrite range_cons by exact Hn.
  change (seq 0 (S ?m)) with (0%nat :: seq 1 m). cbn [List.map].
  destruct (generate_response self s u j w) as [r w1] eqn:E.
  cbn [fst] in Hraise. subst r.
  apply (retry_loop_attempt_not_caught self s u j _ _ _ _ _ w w1 e E He).
Qed.

(** X21. Every sleep of a call of [generate_with_retry] lasts at least 0
    and at most [max_delay + 1] seconds. *)
Theorem generate_with_retry_each_sleep_bounded
    (self : instance) (s u : str) (j : bool) (w : world) :
  draws_in_unit_interval uniform01 ->
  exists tr,
    snd (generate_with_retry self s u j w) = w ++ tr /\
    Forall (fun d => 0 <= d /\
                     d <= max_delay (processing (self_config self)) + 1)%Q
      (sleeps tr).
Proof.
  intros Hdraws. unfold LLMClient.generate_with_retry. cbv zeta.
  apply retry_loop_sleeps_bounded. exact Hdraws.
Qed.


End Retrying.

Lemma draws_half : draws_in_unit_interval Fixtures.uniform_half.
Proof. intros w. split; [discriminate | reflexivity]. Qed.




Lemma generate_with_retry_base_exception_not_retried_witness :
  generate_with_retry Fixtures.ascii_lower Fixtures.api_interrupted
    Fixtures.uniform_half Fixtures.client_openai
    (pystr "system") (pystr "user") true []
  = generate_response Fixtures.ascii_lower Fixtures.api_interrupted
      Fixtures.client_openai (pystr "system") (pystr "user") true [].
Proof.
  apply (generate_with_retry_base_exception_not_retried
           Fixtures.ascii_lower Fixtures.api_interrupted Fixtures.uniform_half
           Fixtures.client_openai (pystr "system") (pystr "user") true []
           KeyboardInterrupt).
  - vm_compute. discriminate.
  - vm_compute. reflexivity.
  - reflexivity.
Defined.

Lemma generate_with_retry_each_sleep_bounded_witness :
  exists tr,
    snd (generate_with_retry Fixtures.ascii_lower Fixtures.api_rate_limited
           Fixtures.uniform_half Fixtures.client_openai
           (pystr "system") (pystr "user") true [])
    = [] ++ tr /\
    Forall (fun d => 0 <= d /\ d <= 1 + 1)%Q (sleeps tr).
Proof.
  apply (generate_with_retry_each_sleep_bounded
           Fixtures.ascii_lower Fixtures.api_rate_limited Fixtures.uniform_half
           Fixtures.client_openai (pystr "system") (pystr "user") true []).
  exact draws_half.
Defined.


Lemma generate_with_retry_no_attempt_witness :
  generate_with_retry Fixtures.ascii_lower Fixtures.api_ok
    Fixtures.uniform_half Fixtures.client_no_attempt
    (pystr "system") (pystr "user") true []
  = (Raise (Exception_ (pystr "Max retries exceeded")), []).
Proof.
  apply (generate_with_retry_no_attempt
           Fixtures.ascii_lower Fixtures.api_ok Fixtures.uniform_half
           Fixtures.client_no_attempt (pystr "system") (pystr "user") true []).
  vm_compute. discriminate.
Defined.

End LLMClientFacts.
